(** * gulag-web frontend: a shallow embedding of [blueprints/frontend.py]

    The route handlers of the frontend blueprint are embedded as pure
    functions over an explicit world (relational store, bcrypt cache,
    session).  Python [str] values are modelled by [string]; every [ascii]
    stands for the code point of the same number (U+0000 .. U+00FF), and the
    character classes below are the ones Python's [re] and [str] methods use
    on that range. *)

From Stdlib Require Import ZArith NArith Ascii String List Bool Lia.
From stdpp Require Import base option strings list gmap fin_maps.

Local Open Scope string_scope.
Local Open Scope Z_scope.

(** ** Characters and strings *)

Module Str.

Definition code (c : ascii) : N := N_of_ascii c.

Definition between (lo hi : N) (c : ascii) : bool :=
  ((lo <=? code c) && (code c <=? hi))%N.

(** [Py_UNICODE_ISALNUM] on U+0000 .. U+00FF. *)
Definition is_alnum (c : ascii) : bool :=
  between 48 57 c || between 65 90 c || between 97 122 c
  || (code c =? 170)%N || between 178 179 c || (code c =? 181)%N
  || between 185 186 c || between 188 190 c
  || between 192 214 c || between 216 246 c || between 248 255 c.

(** The class [\w] of a [str] pattern. *)
Definition is_word (c : ascii) : bool := is_alnum c || (code c =? 95)%N.

(** The class [\s] of a [str] pattern. *)
Definition is_space (c : ascii) : bool :=
  between 9 13 c || between 28 32 c || (code c =? 133)%N || (code c =? 160)%N.

(** [str.lower] on one code point. *)
Definition lower_char (c : ascii) : ascii :=
  if between 65 90 c || between 192 214 c || between 216 222 c
  then ascii_of_N (code c + 32) else c.

Fixpoint lower (s : string) : string :=
  match s with
  | EmptyString => EmptyString
  | String c s' => String (lower_char c) (lower s')
  end.

(** [c in s] for a one-character [c]. *)
Fixpoint contains (c : ascii) (s : string) : bool :=
  match s with
  | EmptyString => false
  | String c' s' => Ascii.eqb c c' || contains c s'
  end.

(** [s.replace(a, b)] for one-character [a] and [b]. *)
Fixpoint replace (a b : ascii) (s : string) : string :=
  match s with
  | EmptyString => EmptyString
  | String c s' => String (if Ascii.eqb c a then b else c) (replace a b s')
  end.

(** [len(s)]. *)
Definition len (s : string) : Z := Z.of_nat (String.length s).

Fixpoint chars (s : string) : list ascii :=
  match s with
  | EmptyString => []
  | String c s' => c :: chars s'
  end.

Fixpoint mem (c : ascii) (l : list ascii) : bool :=
  match l with
  | [] => false
  | c' :: l' => Ascii.eqb c c' || mem c l'
  end.

(** The elements of [set(s)], each once. *)
Fixpoint set_of (l : list ascii) : list ascii :=
  match l with
  | [] => []
  | c :: l' => if mem c l' then set_of l' else c :: set_of l'
  end.

(** [len(set(s))]. *)
Definition distinct (s : string) : Z := Z.of_nat (length (set_of (chars s))).

(** [x in xs] for a list of strings. *)
Definition in_list (x : string) (xs : list string) : bool :=
  existsb (String.eqb x) xs.

(** [s.startswith(p)]. *)
Fixpoint starts_with (p s : string) : bool :=
  match p, s with
  | EmptyString, _ => true
  | String a p', String b s' => Ascii.eqb a b && starts_with p' s'
  | String _ _, EmptyString => false
  end.

(** The double-quote character, for messages that contain it. *)
Definition dquote : string := String (ascii_of_N 34) EmptyString.

End Str.

(** ** The two compiled patterns

    The patterns of the source only use character classes with bounded
    repetition, literal characters and the end anchor.  [re_match] is
    [pattern.match(s)]: a greedy, backtracking match at the start of [s]. *)

Module Re.

Inductive item :=
| Class (p : ascii -> bool) (lo hi : nat)   (* [...]{lo,hi} *)
| Lit (c : ascii)                           (* one literal character *)
| Eos.                                      (* $ *)

(** [$] matches at the end of the string and just before a newline that is
    the last character. *)
Definition at_end (s : string) : bool :=
  match s with
  | EmptyString => true
  | String c EmptyString => (Str.code c =? 10)%N
  | _ => false
  end.

(** Greedy bounded repetition with continuation [k]. *)
Fixpoint repeat (p : ascii -> bool) (lo hi : nat) (k : string -> bool)
         (s : string) : bool :=
  match hi with
  | O => Nat.eqb lo 0 && k s
  | S hi' =>
      match s with
      | String c s' =>
          if p c
          then repeat p (Nat.pred lo) hi' k s' || (Nat.eqb lo 0 && k s)
          else Nat.eqb lo 0 && k s
      | EmptyString => Nat.eqb lo 0 && k s
      end
  end.

Fixpoint re_match (pat : list item) (s : string) : bool :=
  match pat with
  | [] => true
  | Class p lo hi :: pat' => repeat p lo hi (re_match pat') s
  | Lit c :: pat' =>
      match s with
      | String c' s' => Ascii.eqb c c' && re_match pat' s'
      | EmptyString => false
      end
  | Eos :: pat' => at_end s && re_match pat' s
  end.

End Re.

Definition is_char (n : N) (c : ascii) : bool := (Str.code c =? n)%N.

(** [[\w \[\]-]] *)
Definition username_class (c : ascii) : bool :=
  Str.is_word c || is_char 32 c || is_char 91 c || is_char 93 c || is_char 45 c.

(** [_username_rgx = re.compile(r'^[\w \[\]-]{2,15}$')] *)
Definition _username_rgx : list Re.item :=
  [Re.Class username_class 2 15; Re.Eos].

(** [[^@\s]], [[^@\s\.]] and [[^@\.\s]] *)
Definition email_local_class (c : ascii) : bool :=
  negb (is_char 64 c || Str.is_space c).
Definition email_label_class (c : ascii) : bool :=
  negb (is_char 64 c || Str.is_space c || is_char 46 c).

(** [_email_rgx = re.compile(r'^[^@\s]{1,200}@[^@\s\.]{1,30}\.[^@\.\s]{1,24}$')] *)
Definition _email_rgx : list Re.item :=
  [Re.Class email_local_class 1 200; Re.Lit "@"%char;
   Re.Class email_label_class 1 30; Re.Lit "."%char;
   Re.Class email_label_class 1 24; Re.Eos].

(** ** Data model *)

(** A row of the [users] table, with the columns the frontend reads or
    writes. *)
Record user := {
  u_id : Z;
  u_name : string;
  u_safe_name : string;
  u_email : string;
  u_pw_bcrypt : string;
  u_priv : Z;
  u_country : string;
  u_silence_end : Z
}.

(** The relational store: the [users] and [stats] tables and the
    AUTO_INCREMENT counter of [users]. *)
Record database := {
  users : list user;
  stats : list Z;
  next_id : Z
}.

(** [session['user_data']] *)
Record user_data := {
  sd_id : Z;
  sd_name : string;
  sd_priv : Z;
  sd_silence_end : Z;
  sd_is_staff : Z
}.

(** The session is a dict with the optional keys ['authenticated'] and
    ['user_data']. *)
Record session_t := {
  authenticated : option bool;
  session_user_data : option user_data
}.

Definition anonymous : session_t :=
  {| authenticated := None; session_user_data := None |}.

(** [glob.config] *)
Record config := {
  debug : bool;
  registration : bool;
  disallowed_names : list string;
  disallowed_passwords : list string;
  discord_server : string
}.

(** Everything a handler can read or change.  [checkpw_calls] is a ghost
    counter of the calls of [bcrypt.checkpw]. *)
Record world := {
  db : database;
  bcrypt_cache : gmap string string;
  session : session_t;
  checkpw_calls : nat
}.

Definition set_session (s : session_t) (w : world) : world :=
  {| db := db w; bcrypt_cache := bcrypt_cache w; session := s;
     checkpw_calls := checkpw_calls w |}.

Definition set_db (d : database) (w : world) : world :=
  {| db := d; bcrypt_cache := bcrypt_cache w; session := session w;
     checkpw_calls := checkpw_calls w |}.

Definition cache_store (h d : string) (w : world) : world :=
  {| db := db w; bcrypt_cache := <[h := d]> (bcrypt_cache w);
     session := session w; checkpw_calls := checkpw_calls w |}.

Definition count_checkpw (w : world) : world :=
  {| db := db w; bcrypt_cache := bcrypt_cache w; session := session w;
     checkpw_calls := S (checkpw_calls w) |}.

(** A request whose form carries the three fields, with the query
    arguments and the peer address.  ([form_t] below is the form of any
    request, with fields that may be absent.) *)
Record request := {
  form_username : string;
  form_email : string;
  form_password : string;
  arg_mode : option string;
  arg_mods : option string;
  remote_addr : string
}.

(** The form as a handler reads it: [form.get] gives [None] for a field
    that the request does not carry. *)
Record form_t := {
  get_username : option string;
  get_email : option string;
  get_password : option string
}.

(** The form of a request that carries the three fields. *)
Definition form_of (rq : request) : form_t :=
  {| get_username := Some (form_username rq);
     get_email := Some (form_email rq);
     get_password := Some (form_password rq) |}.

Inductive exception :=
| NameError (name : string)
| KeyError (key : string)
| AttributeError (attr : string)
| ValueError (msg : string)
| OSError (path : string)
| TypeError (msg : string)
| DatabaseError (msg : string).

Inductive tvalue :=
| TStr (s : string)
| TRow (name : string) (id priv : Z) (country : string).

(** What a handler returns: a rendered template, a flash (template with a
    status and a message), a raw byte payload, a redirect, or an exception
    that leaves the handler. *)
Inductive response :=
| Template (name : string) (args : list (string * tvalue))
| Flash (status msg template : string)
| Bytes (payload : string)
| Redirect (url : string)
| Raised (e : exception).

(** The collaborators the module imports: hashing, name normalisation,
    geolocation, the privilege flags, markdown conversion, and the column
    defaults of the [users] table.  [bcrypt_checkpw] is [None] when
    [bcrypt.checkpw] raises, as it does on a stored hash that is not a
    bcrypt hash (the comment at lines 105-107); [markdown_path] is [None]
    when the file cannot be read.  [get_safe_name_none] is what
    [get_safe_name(None)] does, and [sql_where_id] is what the database
    makes of the query of line 61 when the text pasted after [WHERE id =]
    is not a string of decimal digits ([inl]: the call raises). *)
Record externals := {
  md5_hexdigest : string -> string;
  bcrypt_checkpw : string -> string -> option bool;
  bcrypt_hashpw : string -> string -> string;
  get_safe_name : string -> string;
  geolite2_lookup : string -> option string;
  markdown_path : string -> option string;
  capitalize : string -> string;
  Privileges_Normal : Z;
  Privileges_Verified : Z;
  Privileges_Staff : Z;
  default_priv : Z;
  default_silence_end : Z;
  get_safe_name_none : exception + string;
  sql_where_id : string -> database -> exception + option user
}.

(** ** Queries *)

(** [SELECT 1 FROM users WHERE name = %s] *)
Definition name_taken (d : database) (username : string) : bool :=
  existsb (fun u => String.eqb (u_name u) username) (users d).

(** [SELECT 1 FROM users WHERE email = %s] *)
Definition email_taken (d : database) (email : string) : bool :=
  existsb (fun u => String.eqb (u_email u) email) (users d).

(** [SELECT id, name, priv, pw_bcrypt, silence_end FROM users WHERE safe_name = %s] *)
Definition fetch_by_safe_name (d : database) (safe : string) : option user :=
  find (fun u => String.eqb (u_safe_name u) safe) (users d).

(** [SELECT name, id, priv, country FROM users WHERE id = {user}] *)
Definition fetch_by_id (d : database) (id : Z) : option user :=
  find (fun u => u_id u =? id) (users d).

(** The number a non-empty string of decimal digits denotes. *)
Fixpoint digits_value (acc : Z) (s : string) : option Z :=
  match s with
  | EmptyString => Some acc
  | String c s' =>
      if Str.between 48 57 c
      then digits_value (10 * acc + (Z.of_N (Str.code c) - 48)) s'
      else None
  end.

Definition decimal_literal (s : string) : option Z :=
  match s with
  | EmptyString => None
  | String _ _ => digits_value 0 s
  end.

(** [glob.db.fetch(f'SELECT name, id, priv, country FROM users WHERE id = {user}')]:
    the path segment is pasted into the query text.  A string of digits is
    a number, and the query is the lookup by that id; any other text is
    read by the database as it reads SQL. *)
Definition fetch_profile (E : externals) (d : database) (segment : string)
  : exception + option user :=
  match decimal_literal segment with
  | Some id => inr (fetch_by_id d id)
  | None => sql_where_id E segment d
  end.

(** [INSERT INTO users (name, safe_name, email, pw_bcrypt, country, ...)]:
    the new row gets the next id and the column defaults; the id is returned. *)
Definition insert_user (E : externals) (name safe email pw_bcrypt country : string)
           (d : database) : Z * database :=
  let row := {| u_id := next_id d; u_name := name; u_safe_name := safe;
                u_email := email; u_pw_bcrypt := pw_bcrypt;
                u_priv := default_priv E; u_country := country;
                u_silence_end := default_silence_end E |} in
  (next_id d,
   {| users := users d ++ [row]; stats := stats d; next_id := next_id d + 1 |}).

(** [INSERT INTO stats (id) VALUES (%s)] *)
Definition insert_stats (id : Z) (d : database) : database :=
  {| users := users d; stats := stats d ++ [id]; next_id := next_id d |}.

(** ** Constants of the module *)

Definition valid_modes : gset string := {["std"; "taiko"; "catch"; "mania"]}.
Definition valid_mods : gset string := {["vn"; "rx"; "ap"]}.
Definition valid_sorts : gset string :=
  {["tscore"; "rscore"; "pp"; "plays"; "playtime"; "acc"; "maxcombo"]}.

(** ** Name resolution

    A name that a handler reads is looked up among the handler's locals and
    then among the names bound at module level; a name bound in neither
    raises [NameError] (no name used below is a builtin). *)

Inductive pyval :=
| PStr (s : string)
| PObj.

Definition module_globals : list string :=
  ["asyncio"; "re"; "time"; "bcrypt"; "hashlib"; "markdown2"; "geolite2";
   "Blueprint"; "render_template"; "redirect"; "request"; "session"; "log";
   "Ansi"; "glob"; "Privileges"; "flash"; "get_safe_name"; "__all__";
   "frontend"; "valid_modes"; "valid_mods"; "valid_sorts"; "home";
   "settings"; "profile"; "leaderboard_nodata"; "leaderboard"; "login";
   "login_post"; "_username_rgx"; "_email_rgx"; "register"; "register_post";
   "logout"; "docs_nodata"; "docs"; "discord"].

Fixpoint assoc (name : string) (env : list (string * pyval)) : option pyval :=
  match env with
  | [] => None
  | (n, v) :: env' => if String.eqb n name then Some v else assoc name env'
  end.

Definition resolve (name : string) (locals : list (string * pyval)) : option pyval :=
  match assoc name locals with
  | Some v => Some v
  | None => if Str.in_list name module_globals then Some PObj else None
  end.

(** ** Handlers *)

Section Handlers.

Variable E : externals.
Variable cfg : config.

(** ['authenticated' in session] *)
Definition logged_in (w : world) : bool :=
  match authenticated (session w) with Some _ => true | None => false end.

(** A flash whose message interpolates [session["user_data"]["name"]]. *)
Definition flash_with_name (pre post template : string) (w : world) : response :=
  match session_user_data (session w) with
  | Some ud => Flash "error" (pre +:+ sd_name ud +:+ post) template
  | None => Raised (KeyError "user_data")
  end.

(** [x & flag] used as a condition. *)
Definition has_flag (x flag : Z) : bool := negb (Z.land x flag =? 0).

Definition home : response := Template "home.html" [].

Definition settings (w : world) : response :=
  if negb (logged_in w)
  then Flash "error" "You must be logged in to access user settings!" "login"
  else Template "settings.html" [].

(** The [if arg: ... else: arg = default] blocks of [profile]: [None] when
    the value is rejected, the value to use otherwise. *)
Definition checked_arg (arg : option string) (valid : gset string)
           (default : string) : option string :=
  match arg with
  | Some v =>
      if String.eqb v "" then Some default
      else if bool_decide (v ∈ valid) then Some v else None
  | None => Some default
  end.

(** The condition of lines 64-66 for a row that was found. *)
Definition hidden (u : user) (w : world) : response + bool :=
  if (u_priv u <? 3) && negb (logged_in w) then inr true
  else if (u_priv u <? 3) && logged_in w then
    match session_user_data (session w) with
    | Some ud => inr (negb (has_flag (sd_priv ud) (Privileges_Staff E)))
    | None => inl (Raised (KeyError "user_data"))
    end
  else inr false.

(** Lines 47-69 of [profile], for what [glob.db.fetch] answered at line 61
    ([inl]: the call raised). *)
Definition profile_with (result : exception + option user) (rq : request)
           (w : world) : response :=
  match checked_arg (arg_mods rq) valid_mods "vn" with
  | None => Bytes "invalid mods! (vn, rx, ap)"
  | Some mods =>
      match checked_arg (arg_mode rq) valid_modes "std" with
      | None => Bytes "invalid mode! (std, taiko, catch, mania)"
      | Some mode =>
          match result with
          | inl e => Raised e
          | inr None => Template "404.html" []
          | inr (Some u) =>
              match hidden u w with
              | inl r => r
              | inr true => Template "404.html" []
              | inr false =>
                  Template "profile.html"
                    [("user", TRow (u_name u) (u_id u) (u_priv u) (u_country u));
                     ("mode", TStr mode); ("mods", TStr mods)]
              end
          end
      end
  end.

(** [profile(user)]: the handler of /u/<user>, on the path segment as the
    route passes it. *)
Definition profile_segment (user : string) (rq : request) (w : world) : response :=
  profile_with (fetch_profile E (db w) user) rq w.

(** The handler on a path segment that is the decimal numeral of [user]:
    the query is the lookup by id. *)
Definition profile (user : Z) (rq : request) (w : world) : response :=
  Eval cbv beta iota zeta delta [profile_with] in
  profile_with (inr (fetch_by_id (db w) user)) rq w.

Definition leaderboard_nodata : response :=
  Template "leaderboard.html"
    [("mode", TStr "std"); ("sort", TStr "pp"); ("mods", TStr "vn")].

Definition leaderboard (mode sort mods : string) : response :=
  Template "leaderboard.html"
    [("mode", TStr mode); ("sort", TStr sort); ("mods", TStr mods)].

Definition login (w : world) : response :=
  if logged_in w
  then flash_with_name "Hey! You're already logged in " "!" "home" w
  else Template "login.html" [].

(** Lines 120-132: the password check, through the cache when the hash is
    a key of it and through [bcrypt.checkpw] otherwise.  The result is
    [None] when [bcrypt.checkpw] raised. *)
Definition check_password (pw_md5 pw_bcrypt : string) (w : world)
  : option bool * world :=
  match bcrypt_cache w !! pw_bcrypt with
  | Some cached => (Some (String.eqb pw_md5 cached), w)
  | None =>
      match bcrypt_checkpw E pw_md5 pw_bcrypt with
      | Some true => (Some true, cache_store pw_bcrypt pw_md5 (count_checkpw w))
      | Some false => (Some false, count_checkpw w)
      | None => (None, count_checkpw w)
      end
  end.

(** [str(x)] inside an f-string, for a value that may be [None]. *)
Definition fmt (x : option string) : string :=
  match x with Some v => v | None => "None" end.

(** [get_safe_name(username)] for a field that may be absent. *)
Definition safe_name_of (username : option string) : exception + string :=
  match username with
  | Some name => inr (get_safe_name E name)
  | None => get_safe_name_none E
  end.

(** [login_post], on the form as [request.form] gives it. *)
Definition login_post_form (form : form_t) (w : world) : response * world :=
  if logged_in w
  then (flash_with_name "Hey! You're already logged in " "!" "home" w, w)
  else
    let username := get_username form in
    match safe_name_of username with
    | inl e => (Raised e, w)
    | inr safe =>
    match fetch_by_safe_name (db w) safe with
    | None => (Flash "error" "Account does not exist." "login", w)
    | Some user_info =>
        if u_id user_info =? 1
        then (Flash "error" "Account does not exist." "login", w)
        else
          let pw_bcrypt := u_pw_bcrypt user_info in
          match get_password form with
          | None => (Raised (AttributeError "encode"), w)   (* line 116 *)
          | Some password =>
          let pw_md5 := md5_hexdigest E password in
          let '(ok, w1) := check_password pw_md5 pw_bcrypt w in
          match ok with
          | None => (Raised (ValueError "Invalid salt"), w1)
          | Some false => (Flash "error" "Password is incorrect." "login", w1)
          | Some true =>
              if negb (has_flag (u_priv user_info) (Privileges_Verified E))
              then (Template "verify.html" [], w1)
              else if negb (has_flag (u_priv user_info) (Privileges_Normal E))
              then (Flash "error" "You are banned!" "login", w1)
              else
                let s := {| authenticated := Some true;
                            session_user_data := Some
                              {| sd_id := u_id user_info;
                                 sd_name := u_name user_info;
                                 sd_priv := u_priv user_info;
                                 sd_silence_end := u_silence_end user_info;
                                 sd_is_staff :=
                                   Z.land (u_priv user_info) (Privileges_Staff E) |} |} in
                (Flash "success" ("Hey! Welcome back " +:+ fmt username +:+ "!") "home",
                 set_session s w1)
          end
          end
    end
    end.

(** The handler on a request whose form carries the fields. *)
Definition login_post (rq : request) (w : world) : response * world :=
  Eval cbv beta iota zeta delta
    [login_post_form form_of get_username get_password safe_name_of fmt] in
  login_post_form (form_of rq) w.

Definition register (w : world) : response :=
  if logged_in w
  then flash_with_name "Hey! You're already registered and logged in " "!" "home" w
  else if negb (registration cfg)
  then Flash "error"
         "Hey! You can't register at this time! Sorry for the inconvenience!" "home"
  else Template "register.html" [].

(** Lines 236-264, the write phase: seed the cache, pick the country and
    insert the [users] and [stats] rows.  [salt] is the value of
    [bcrypt.gensalt()]. *)
Definition register_write (salt username email pw_txt addr : string)
           (w : world) : world :=
  let pw_md5 := md5_hexdigest E pw_txt in
  let pw_bcrypt := bcrypt_hashpw E pw_md5 salt in
  let w1 := cache_store pw_bcrypt pw_md5 w in
  let safe_name := get_safe_name E username in
  let country :=
    if String.eqb addr "127.0.0.1" then "xx"
    else match geolite2_lookup E addr with
         | Some c => Str.lower c
         | None => "xx"
         end in
  let '(user_id, d1) :=
    insert_user E username safe_name email pw_bcrypt country (db w1) in
  set_db (insert_stats user_id d1) w1.

(** [register_post], on the form as [request.form] gives it; [addr] is
    [request.remote_addr].  A field that is absent is [None], and the first
    check that reads it raises: [_username_rgx.match(None)] at line 202,
    [_email_rgx.match(None)] at line 217, [len(None)] at line 227. *)
Definition register_post_form (salt : string) (form : form_t) (addr : string)
           (w : world) : response * world :=
  if logged_in w
  then (flash_with_name "Hey! You're already registered and logged in " "!" "home" w, w)
  else if negb (registration cfg)
  then (Flash "error"
          "Hey! You can't register at this time! Sorry for the inconvenience!" "home", w)
  else
    match get_username form with
    | None => (Raised (TypeError "expected string or bytes-like object"), w)
    | Some username =>
    if negb (Re.re_match _username_rgx username)
    then (Flash "error" "Invalid username syntax." "register", w)
    else if Str.contains "_" username && Str.contains " " username
    then (Flash "error"
            ("Username may contain " +:+ Str.dquote +:+ "_" +:+ Str.dquote
             +:+ " or " +:+ Str.dquote +:+ " " +:+ Str.dquote
             +:+ ", but not both.") "register", w)
    else if Str.in_list username (disallowed_names cfg)
    then (Flash "error" "Disallowed username; pick another." "register", w)
    else if name_taken (db w) username
    then (Flash "error" "Username already taken by another user." "register", w)
    else
    match get_email form with
    | None => (Raised (TypeError "expected string or bytes-like object"), w)
    | Some email =>
    if negb (Re.re_match _email_rgx email)
    then (Flash "error" "Invalid email syntax." "register", w)
    else if email_taken (db w) email
    then (Flash "error" "Email already taken by another user." "register", w)
    else
    match get_password form with
    | None => (Raised (TypeError "object of type 'NoneType' has no len()"), w)
    | Some pw_txt =>
    let locals := [("form", PObj); ("username", PStr username);
                   ("email", PStr email); ("pw_txt", PStr pw_txt)] in
    if negb ((8 <? Str.len pw_txt) && (Str.len pw_txt <=? 32))
    then (Flash "error" "Password must be 8-32 characters in length" "register", w)
    else if Str.distinct pw_txt <=? 3
    then (Flash "error" "Password must have more than 3 unique characters." "register", w)
    else
      (* line 233 reads the name [pw_text] *)
      match resolve "pw_text" locals with
      | None => (Raised (NameError "pw_text"), w)
      | Some PObj => (Raised (AttributeError "lower"), w)
      | Some (PStr v) =>
          if Str.in_list (Str.lower v) (disallowed_passwords cfg)
          then (Flash "error" "That password was deemed too simple." "register", w)
          else (Template "verify.html" [],
                register_write salt username email pw_txt addr w)
      end
    end
    end
    end.

(** The handler on a request whose form carries the fields. *)
Definition register_post (salt : string) (rq : request) (w : world)
  : response * world :=
  Eval cbv beta iota zeta delta
    [register_post_form form_of get_username get_email get_password] in
  register_post_form salt (form_of rq) (remote_addr rq) w.

Definition logout (w : world) : response * world :=
  if negb (logged_in w)
  then (Flash "error" "You can't logout if you aren't logged in!" "login", w)
  else
    (* the debug log line reads session["user_data"]["name"] *)
    match debug cfg, session_user_data (session w) with
    | true, None => (Raised (KeyError "user_data"), w)
    | _, _ => (Flash "success" "Successfully logged out!" "login",
               set_session anonymous w)
    end.

Definition docs_nodata : response := Template "docs.html" [].

Definition docs (doc : string) : response :=
  let path := "docs/" +:+ Str.lower doc +:+ ".md" in
  match markdown_path E path with
  | Some markdown =>
      Template "doc.html"
        [("doc", TStr markdown); ("doc_title", TStr (capitalize E (Str.lower doc)))]
  | None => Raised (OSError path)
  end.

Definition discord : response := Redirect (discord_server cfg).

End Handlers.

(** ** A concrete environment

    Stand-ins for the collaborators, used to run the handlers on concrete
    requests.  [get_safe_name] lowercases and turns spaces into underscores;
    the bcrypt stand-in ignores the salt; the privilege flags are bits 0 and
    1 and the three staff bits 12-14. *)

Definition sample_externals : externals := {|
  md5_hexdigest := fun s => "md5:" +:+ s;
  bcrypt_checkpw := fun d h =>
    if Str.starts_with "$2b$" h then Some (String.eqb h ("$2b$" +:+ d)) else None;
  bcrypt_hashpw := fun d _ => "$2b$" +:+ d;
  get_safe_name := fun name => Str.replace " " "_" (Str.lower name);
  geolite2_lookup := fun _ => None;
  markdown_path := fun _ => None;
  capitalize := fun s => s;
  Privileges_Normal := 1;
  Privileges_Verified := 2;
  Privileges_Staff := 28672;
  default_priv := 1;
  default_silence_end := 0;
  get_safe_name_none := inl (AttributeError "lower");
  sql_where_id := fun _ _ => inl (DatabaseError "Unknown column in 'where clause'")
|}.

Definition sample_config : config := {|
  debug := false;
  registration := true;
  disallowed_names := ["admin"];
  disallowed_passwords := ["password1"];
  discord_server := "https://discord.gg/invite"
|}.

Definition mk_user (id : Z) (name safe email pw : string) (priv : Z) : user :=
  {| u_id := id; u_name := name; u_safe_name := safe; u_email := email;
     u_pw_bcrypt := pw; u_priv := priv; u_country := "xx"; u_silence_end := 0 |}.

(** The bot account (id 1), a verified player, a banned player and a player
    whose display name contains a space. *)
Definition sample_db : database := {|
  users := [mk_user 1 "Aika" "aika" "aika@gulag.ca" "_______" 1;
            mk_user 3 "Alice" "alice" "a@b.co" "$2b$md5:Str0ngPW!" 3;
            mk_user 4 "Mallory" "mallory" "m@b.co" "$2b$md5:hunter2hunter2" 2;
            mk_user 5 "cool guy" "cool_guy" "cool@b.co" "$2b$md5:c00lc00lc00l" 3];
  stats := [1; 3; 4; 5];
  next_id := 6
|}.

Definition sample_world : world :=
  {| db := sample_db; bcrypt_cache := ∅; session := anonymous; checkpw_calls := 0 |}.

Definition staff_session : session_t :=
  {| authenticated := Some true;
     session_user_data := Some {| sd_id := 9; sd_name := "Mod"; sd_priv := 4099;
                                  sd_silence_end := 0; sd_is_staff := 4096 |} |}.

Definition player_session : session_t :=
  {| authenticated := Some true;
     session_user_data := Some {| sd_id := 3; sd_name := "Alice"; sd_priv := 3;
                                  sd_silence_end := 0; sd_is_staff := 0 |} |}.

Definition mk_request (username email password : string) : request :=
  {| form_username := username; form_email := email; form_password := password;
     arg_mode := None; arg_mods := None; remote_addr := "127.0.0.1" |}.

Definition with_password (pw : string) (rq : request) : request :=
  {| form_username := form_username rq; form_email := form_email rq;
     form_password := pw; arg_mode := arg_mode rq; arg_mods := arg_mods rq;
     remote_addr := remote_addr rq |}.

Definition with_args (mode mods : option string) (rq : request) : request :=
  {| form_username := form_username rq; form_email := form_email rq;
     form_password := form_password rq; arg_mode := mode; arg_mods := mods;
     remote_addr := remote_addr rq |}.

(** ** Registration: the checks before the write phase *)

Definition ambiguous_separator_flash : response :=
  Flash "error"
    ("Username may contain " +:+ Str.dquote +:+ "_" +:+ Str.dquote +:+ " or "
     +:+ Str.dquote +:+ " " +:+ Str.dquote +:+ ", but not both.") "register".

(** The answer of a successful login. *)
Definition welcome_back (rq : request) : response :=
  Flash "success" ("Hey! Welcome back " +:+ form_username rq +:+ "!") "home".

(** The request passed the two guards and the username checks up to the
    deny list. *)
Definition username_accepted (cfg : config) (rq : request) (w : world) : Prop :=
  logged_in w = false ∧ registration cfg = true ∧
  Re.re_match _username_rgx (form_username rq) = true ∧
  (Str.contains "_" (form_username rq) && Str.contains " " (form_username rq)) = false ∧
  Str.in_list (form_username rq) (disallowed_names cfg) = false.

(** ... and the remaining checks up to the password. *)
Definition email_accepted (cfg : config) (rq : request) (w : world) : Prop :=
  username_accepted cfg rq w ∧
  name_taken (db w) (form_username rq) = false ∧
  Re.re_match _email_rgx (form_email rq) = true ∧
  email_taken (db w) (form_email rq) = false.


(** ** Properties of the store, the cache and the responses *)

Definition unique_names (d : database) : Prop := NoDup (map u_name (users d)).
Definition unique_safe_names (d : database) : Prop := NoDup (map u_safe_name (users d)).
Definition unique_emails (d : database) : Prop := NoDup (map u_email (users d)).

(** No row carries the safe name [safe]. *)
Definition safe_name_free (d : database) (safe : string) : bool :=
  negb (existsb (fun u => String.eqb (u_safe_name u) safe) (users d)).

(** Every cached digest verifies against the hash it is stored under. *)
Definition cache_wf (E : externals) (c : gmap string string) : Prop :=
  ∀ h d, c !! h = Some d → bcrypt_checkpw E d h = Some true.

(** A query value that is given, not empty, and not in the enumeration. *)
Definition rejected (arg : option string) (valid : gset string) : Prop :=
  ∃ v, arg = Some v ∧ v ≠ "" ∧ v ∉ valid.

Definition is_bytes (r : response) : bool :=
  match r with Bytes _ => true | _ => false end.

(** The world in which the next request of a not yet authenticated client
    runs: the store and the cache as [w] left them, the session of [s]. *)
Definition next_attempt (s : world) (w : world) : world :=
  set_session (session s) w.

(** ** What the patterns accept, as a specification *)

(** Every character of [s] satisfies [p]. *)
Fixpoint str_all (p : ascii -> bool) (s : string) : bool :=
  match s with
  | EmptyString => true
  | String c s' => p c && str_all p s'
  end.

(** The newline character, and the string that consists of it. *)
Definition newline_char : ascii := ascii_of_N 10.
Definition newline : string := String newline_char EmptyString.

(** The strings a pattern matches at their start: each item takes its part
    of the string, in order. *)
Fixpoint denotes (pat : list Re.item) (s : string) : Prop :=
  match pat with
  | [] => True
  | Re.Class p lo hi :: pat' =>
      ∃ body rest, s = body +:+ rest
                   ∧ (lo <= String.length body <= hi)%nat
                   ∧ str_all p body = true ∧ denotes pat' rest
  | Re.Lit c :: pat' => ∃ rest, s = String c rest ∧ denotes pat' rest
  | Re.Eos :: pat' => (s = EmptyString ∨ s = newline) ∧ denotes pat' s
  end.

(** ** Routing

    The routes of the blueprint, with the path segments they carry;
    [RRegisterPost] carries the salt that [bcrypt.gensalt()] draws. *)

Inductive route :=
| RHome                                     (* GET / and /home *)
| RSettings                                 (* GET /settings *)
| RProfile (user : Z)                       (* GET /u/<user> *)
| RLeaderboardNodata                        (* GET /leaderboard *)
| RLeaderboard (mode sort mods : string)    (* GET /leaderboard/<mode>/<sort>/<mods> *)
| RLogin                                    (* GET /login *)
| RLoginPost                                (* POST /login *)
| RRegister                                 (* GET /register *)
| RRegisterPost (salt : string)             (* POST /register *)
| RLogout                                   (* GET /logout *)
| RDocsNodata                               (* GET /docs *)
| RDocs (doc : string)                      (* GET /doc/<doc> *)
| RDiscord.                                 (* GET /discord *)

(** One request: the handler of the route runs on the world. *)
Definition handle (E : externals) (cfg : config) (r : route) (rq : request)
           (w : world) : response * world :=
  match r with
  | RHome => (home, w)
  | RSettings => (settings w, w)
  | RProfile user => (profile E user rq w, w)
  | RLeaderboardNodata => (leaderboard_nodata, w)
  | RLeaderboard mode sort mods => (leaderboard mode sort mods, w)
  | RLogin => (login w, w)
  | RLoginPost => login_post E rq w
  | RRegister => (register cfg w, w)
  | RRegisterPost salt => register_post E cfg salt rq w
  | RLogout => logout cfg w
  | RDocsNodata => (docs_nodata, w)
  | RDocs doc => (docs E doc, w)
  | RDiscord => (discord cfg, w)
  end.

(** The world after a sequence of requests of one client. *)
Fixpoint run (E : externals) (cfg : config) (calls : list (route * request))
         (w : world) : world :=
  match calls with
  | [] => w
  | (r, rq) :: calls' => run E cfg calls' (snd (handle E cfg r rq w))
  end.

(** ** Invariants of the session and the store *)


(** The snapshot of an authenticated session is that of a stored row other
    than the row with id 1, with the Verified and the Normal bit. *)
Definition session_backed (E : externals) (w : world) : Prop :=
  ∀ ud, logged_in w = true -> session_user_data (session w) = Some ud ->
    ∃ u, In u (users (db w)) ∧ u_id u ≠ 1
         ∧ sd_id ud = u_id u ∧ sd_name ud = u_name u ∧ sd_priv ud = u_priv u
         ∧ sd_silence_end ud = u_silence_end u
         ∧ sd_is_staff ud = Z.land (u_priv u) (Privileges_Staff E)
         ∧ has_flag (u_priv u) (Privileges_Verified E) = true
         ∧ has_flag (u_priv u) (Privileges_Normal E) = true.

(** The ids of the rows are distinct and below the AUTO_INCREMENT counter,
    and every row of [users] has its row in [stats]. *)
Definition store_ok (d : database) : Prop :=
  (∀ u, In u (users d) -> u_id u < next_id d)
  ∧ NoDup (map u_id (users d))
  ∧ (∀ u, In u (users d) -> In (u_id u) (stats d)).

(** The session [login_post] stores for the row [u]. *)
Definition snapshot (E : externals) (u : user) : session_t :=
  {| authenticated := Some true;
     session_user_data := Some
       {| sd_id := u_id u; sd_name := u_name u; sd_priv := u_priv u;
          sd_silence_end := u_silence_end u;
          sd_is_staff := Z.land (u_priv u) (Privileges_Staff E) |} |}.

(** What [login_post] answers once the password is accepted, by the
    privilege value of the row (lines 135-164). *)
Definition after_password (E : externals) (rq : request) (priv : Z) : response :=
  if negb (has_flag priv (Privileges_Verified E)) then Template "verify.html" []
  else if negb (has_flag priv (Privileges_Normal E))
  then Flash "error" "You are banned!" "login"
  else welcome_back rq.

(** A store with a staff account, and its world. *)
Definition staffed_db : database := {|
  users := users sample_db ++ [mk_user 9 "Mod" "mod" "mod@b.co" "$2b$md5:m0derat0r!" 4099];
  stats := stats sample_db ++ [9];
  next_id := 10
|}.

Definition staffed_world : world := set_db staffed_db sample_world.

(** A second stand-in for bcrypt, which reads only the first eight
    characters of what it hashes, so that two digests that agree on them
    verify against the same hash; and a store whose one account has such a
    hash. *)
Definition short_sighted_externals : externals := {|
  md5_hexdigest := md5_hexdigest sample_externals;
  bcrypt_checkpw := fun d h =>
    if Str.starts_with "$2b$" h
    then Some (String.eqb h ("$2b$" +:+ String.substring 0 8 d)) else None;
  bcrypt_hashpw := fun d _ => "$2b$" +:+ String.substring 0 8 d;
  get_safe_name := get_safe_name sample_externals;
  geolite2_lookup := geolite2_lookup sample_externals;
  markdown_path := markdown_path sample_externals;
  capitalize := capitalize sample_externals;
  Privileges_Normal := 1;
  Privileges_Verified := 2;
  Privileges_Staff := 28672;
  default_priv := 1;
  default_silence_end := 0;
  get_safe_name_none := get_safe_name_none sample_externals;
  sql_where_id := sql_where_id sample_externals
|}.

Definition short_sighted_world : world :=
  set_db {| users := [mk_user 3 "Alice" "alice" "a@b.co" "$2b$md5:Str0" 3];
            stats := [3]; next_id := 4 |} sample_world.

(** * Theorems *)

Example username_rgx_samples :
  map (Re.re_match _username_rgx)
      ["Alice"; "a"; "a_b c"; "[x]-y"; "sixteen_chars_16"; "bad!name"]
  = [true; false; true; true; false; false].
Proof. vm_compute. reflexivity. Qed.

Example email_rgx_samples :
  map (Re.re_match _email_rgx) ["a@b.co"; "a@b"; "a b@c.de"; "a@b.c.d"; "@b.co"]
  = [true; false; false; false; false].
Proof. vm_compute. reflexivity. Qed.

Example distinct_samples :
  map Str.distinct ["aaa"; "abcabc"; "Str0ngPW!"] = [1; 3; 9].
Proof. vm_compute. reflexivity. Qed.

Example valid_mods_samples :
  map (fun m => bool_decide (m ∈ valid_mods)) ["vn"; "rx"; "ap"; "xx"; ""]
  = [true; true; true; false; false].
Proof. vm_compute. reflexivity. Qed.

Lemma resolve_pw_text (username email pw_txt : string) :
  resolve "pw_text" [("form", PObj); ("username", PStr username);
                     ("email", PStr email); ("pw_txt", PStr pw_txt)] = None.
Proof. reflexivity. Qed.

(** Whatever the request, [register_post] returns the world it was given:
    each path ends in a flash before the write phase or in the exception of
    line 233. *)
Lemma register_post_world E cfg salt rq w :
  snd (register_post E cfg salt rq w) = w.
Proof.
  unfold register_post. rewrite resolve_pw_text.
  repeat match goal with |- context [if ?b then _ else _] => destruct b end;
    reflexivity.
Qed.

(** Past the length and distinctness checks the handler raises. *)
Lemma register_post_raises E cfg salt rq w :
  email_accepted cfg rq w ->
  8 < Str.len (form_password rq) <= 32 ->
  3 < Str.distinct (form_password rq) ->
  register_post E cfg salt rq w = (Raised (NameError "pw_text"), w).
Proof.
  intros [[Hl [Hr [Hu [Hs Hd]]]] [Hn [He Ht]]] [Hlo Hhi] Hdist.
  unfold register_post. rewrite resolve_pw_text, Hl, Hr, Hu, Hs, Hd, Hn, He, Ht.
  cbn [negb].
  replace (8 <? Str.len (form_password rq)) with true by (symmetry; apply Z.ltb_lt; lia).
  replace (Str.len (form_password rq) <=? 32) with true by (symmetry; apply Z.leb_le; lia).
  replace (Str.distinct (form_password rq) <=? 3) with false by (symmetry; apply Z.leb_gt; lia).
  reflexivity.
Qed.

(** ** The handlers on sample requests *)

Example login_post_samples :
  map (fun rq => fst (login_post sample_externals rq sample_world))
      [mk_request "Alice" "" "Str0ngPW!"; mk_request "alice" "" "wrong";
       mk_request "Mallory" "" "hunter2hunter2"; mk_request "Cool Guy" "" "c00lc00lc00l"]
  = [Flash "success" "Hey! Welcome back Alice!" "home";
     Flash "error" "Password is incorrect." "login";
     Flash "error" "You are banned!" "login";
     Flash "success" "Hey! Welcome back Cool Guy!" "home"].
Proof. vm_compute. reflexivity. Qed.

Example login_then_logout :
  let w1 := snd (login_post sample_externals (mk_request "Alice" "" "Str0ngPW!")
                   sample_world) in
  logged_in w1 = true
  ∧ login w1 = Flash "error" "Hey! You're already logged in Alice!" "home"
  ∧ session (snd (logout sample_config w1)) = anonymous.
Proof. repeat split. Qed.

Example register_post_samples :
  map (fun rq => fst (register_post sample_externals sample_config "salt" rq sample_world))
      [mk_request "x" "x@b.co" "Str0ngPW!"; mk_request "admin" "x@b.co" "Str0ngPW!";
       mk_request "Bob" "not-an-email" "Str0ngPW!"]
  = [Flash "error" "Invalid username syntax." "register";
     Flash "error" "Disallowed username; pick another." "register";
     Flash "error" "Invalid email syntax." "register"].
Proof. vm_compute. reflexivity. Qed.

(** ** Registration: password checks *)

(** C1: for a request that passes the guards, the username and email
    checks and the length and distinctness checks, the claim expects the
    deny-list flash when the lowercased password is listed.  With
    ["password1"] on the list and the password ["Password1"], the handler
    raises [NameError] at line 233 instead, and writes nothing. *)
Theorem register_post_denylisted_raises :
  Str.in_list (Str.lower "Password1") (disallowed_passwords sample_config) = true ∧
  register_post sample_externals sample_config "salt"
    (mk_request "Bob" "bob@b.co" "Password1") sample_world
  = (Raised (NameError "pw_text"), sample_world).
Proof. split; vm_compute; reflexivity. Qed.

(** C6: the boundaries of the length and distinctness checks are as
    claimed (length 8 is refused, length 32 is let through; 3 distinct
    characters are refused, 4 are let through), but a password that is
    within the bounds and not on the deny list does not get past the third
    check: the handler raises [NameError] there. *)
Theorem register_post_password_boundaries :
  let run pw := fst (register_post sample_externals sample_config "salt"
                       (mk_request "Bob" "bob@b.co" pw) sample_world) in
  run "Abcd1234"
    = Flash "error" "Password must be 8-32 characters in length" "register" ∧
  run "Abcd1234Abcd1234Abcd1234Abcd1234Z"
    = Flash "error" "Password must be 8-32 characters in length" "register" ∧
  run "abcabcabc"
    = Flash "error" "Password must have more than 3 unique characters." "register" ∧
  Str.len "Abcd1234Abcd1234Abcd1234Abcd1234" = 32 ∧
  run "Abcd1234Abcd1234Abcd1234Abcd1234" = Raised (NameError "pw_text") ∧
  Str.distinct "abcdabcda" = 4 ∧
  run "abcdabcda" = Raised (NameError "pw_text") ∧
  Str.in_list (Str.lower "Str0ngPW!") (disallowed_passwords sample_config) = false ∧
  run "Str0ngPW!" = Raised (NameError "pw_text").
Proof. repeat split; vm_compute; reflexivity. Qed.

(** ** Registration: username checks *)

(** C5, as stated, fails: a name with both separators that is longer than
    15 characters is refused for its syntax, not for the separators. *)
Lemma register_post_long_name_invalid_syntax :
  let name := "a_b c d e f g h i" in
  Str.contains "_" name = true ∧ Str.contains " " name = true ∧
  fst (register_post sample_externals sample_config "salt"
         (mk_request name "bob@b.co" "Str0ngPW!") sample_world)
  = Flash "error" "Invalid username syntax." "register" ∧
  Flash "error" "Invalid username syntax." "register" ≠ ambiguous_separator_flash.
Proof. repeat split; try (vm_compute; reflexivity). discriminate. Qed.

(** C5, amended: a name that matches the username pattern and contains both
    a space and an underscore is refused with the separator flash, whatever
    the deny list and the store hold; nothing is written. *)
Theorem register_post_ambiguous_separator E cfg salt rq w :
  logged_in w = false ->
  registration cfg = true ->
  Re.re_match _username_rgx (form_username rq) = true ->
  Str.contains "_" (form_username rq) = true ->
  Str.contains " " (form_username rq) = true ->
  register_post E cfg salt rq w = (ambiguous_separator_flash, w).
Proof.
  intros Hl Hr Hu H1 H2. unfold register_post.
  rewrite Hl, Hr, Hu, H1, H2. reflexivity.
Qed.

Lemma register_post_ambiguous_separator_witness :
  register_post sample_externals sample_config "salt"
    (mk_request "a_b c" "bob@b.co" "Str0ngPW!") sample_world
  = (ambiguous_separator_flash, sample_world).
Proof. apply register_post_ambiguous_separator; reflexivity. Defined.

(** ** Registration: taken names and emails *)

(** C7: when the earlier checks pass and a row with the submitted display
    name exists, or the name is free, the email is well formed and a row
    with the submitted email exists, the handler answers with the matching
    flash and returns the world unchanged: no [users] row, no [stats] row
    and no cache entry is added. *)
Theorem register_post_taken_no_write E cfg salt rq w :
  username_accepted cfg rq w ->
  (name_taken (db w) (form_username rq) = true ->
   register_post E cfg salt rq w
   = (Flash "error" "Username already taken by another user." "register", w))
  ∧
  (name_taken (db w) (form_username rq) = false ->
   Re.re_match _email_rgx (form_email rq) = true ->
   email_taken (db w) (form_email rq) = true ->
   register_post E cfg salt rq w
   = (Flash "error" "Email already taken by another user." "register", w)).
Proof.
  intros (Hl & Hr & Hu & Hs & Hd). split.
  - intros Hn. unfold register_post. rewrite Hl, Hr, Hu, Hs, Hd, Hn. reflexivity.
  - intros Hn He Ht. unfold register_post.
    rewrite Hl, Hr, Hu, Hs, Hd, Hn, He, Ht. reflexivity.
Qed.

Lemma register_post_taken_no_write_witness :
  register_post sample_externals sample_config "salt"
    (mk_request "Alice" "new@b.co" "Str0ngPW!") sample_world
  = (Flash "error" "Username already taken by another user." "register", sample_world)
  ∧
  register_post sample_externals sample_config "salt"
    (mk_request "Bob" "a@b.co" "Str0ngPW!") sample_world
  = (Flash "error" "Email already taken by another user." "register", sample_world).
Proof.
  split.
  - apply (register_post_taken_no_write sample_externals sample_config "salt"
             (mk_request "Alice" "new@b.co" "Str0ngPW!") sample_world).
    + repeat split; reflexivity.
    + reflexivity.
  - apply (register_post_taken_no_write sample_externals sample_config "salt"
             (mk_request "Bob" "a@b.co" "Str0ngPW!") sample_world).
    + repeat split; reflexivity.
    + reflexivity.
    + reflexivity.
    + reflexivity.
Defined.

(** ** Login: unknown and reserved accounts *)

(** C4: when the session is not authenticated and the lookup by safe name
    finds no row, or finds the row with id 1, the handler answers with the
    flash "Account does not exist." for the login page, whatever the
    password, and leaves the world, and so the unauthenticated session, as
    it was. *)
Theorem login_post_account_not_found E rq w :
  logged_in w = false ->
  (fetch_by_safe_name (db w) (get_safe_name E (form_username rq)) = None ∨
   ∃ u, fetch_by_safe_name (db w) (get_safe_name E (form_username rq)) = Some u
        ∧ u_id u = 1) ->
  login_post E rq w = (Flash "error" "Account does not exist." "login", w)
  ∧ logged_in (snd (login_post E rq w)) = false.
Proof.
  intros Hl Hf.
  assert (Heq : login_post E rq w
                = (Flash "error" "Account does not exist." "login", w)).
  { unfold login_post. rewrite Hl.
    destruct Hf as [-> | (u & -> & Hid)]; [reflexivity |].
    rewrite Hid. reflexivity. }
  rewrite Heq. split; [reflexivity | exact Hl].
Qed.

Lemma login_post_account_not_found_witness :
  (login_post sample_externals (mk_request "Nobody" "" "Str0ngPW!") sample_world
   = (Flash "error" "Account does not exist." "login", sample_world)
   ∧ logged_in (snd (login_post sample_externals
                       (mk_request "Nobody" "" "Str0ngPW!") sample_world)) = false)
  ∧
  (login_post sample_externals (mk_request "Aika" "" "_______") sample_world
   = (Flash "error" "Account does not exist." "login", sample_world)
   ∧ logged_in (snd (login_post sample_externals
                       (mk_request "Aika" "" "_______") sample_world)) = false).
Proof.
  split.
  - apply login_post_account_not_found; [reflexivity |]. left. reflexivity.
  - apply login_post_account_not_found; [reflexivity |]. right.
    exists (mk_user 1 "Aika" "aika" "aika@gulag.ca" "_______" 1).
    split; reflexivity.
Defined.

(** ** Profile *)

(** The handler on a segment of digits is the handler on the number. *)
Lemma profile_segment_decimal E user id rq w :
  decimal_literal user = Some id ->
  profile_segment E user rq w = profile E id rq w.
Proof.
  intros H. unfold profile_segment, fetch_profile. rewrite H. reflexivity.
Qed.

Example profile_segment_samples :
  map (fun user => profile_segment sample_externals user (mk_request "" "" "")
                     sample_world)
      ["3"; "003"; "99"; "abc"]
  = [Template "profile.html"
       [("user", TRow "Alice" 3 3 "xx"); ("mode", TStr "std"); ("mods", TStr "vn")];
     Template "profile.html"
       [("user", TRow "Alice" 3 3 "xx"); ("mode", TStr "std"); ("mods", TStr "vn")];
     Template "404.html" [];
     Raised (DatabaseError "Unknown column in 'where clause'")].
Proof. vm_compute. reflexivity. Qed.

(** C8, as stated, fails: the query values are checked before the lookup, so
    a request for an account that does not exist gets the raw payload, not
    the not-found page, when its [mods] value is not in the enumeration. *)
Lemma profile_unknown_account_bad_mods :
  fetch_profile sample_externals (db sample_world) "99" = inr None ∧
  profile_segment sample_externals "99"
    (with_args None (Some "xx") (mk_request "" "" "")) sample_world
  = Bytes "invalid mods! (vn, rx, ap)".
Proof. split; vm_compute; reflexivity. Qed.

(** C8, amended: for a request whose [mode] and [mods] values are accepted
    (absent, empty or in the enumerations), the handler goes by what the
    lookup of line 61 returns for the path segment.  When it returns no row
    the not-found page is rendered; when it returns a row with [priv < 3]
    the not-found page is rendered for an anonymous viewer and for an
    authenticated viewer without a Staff bit, and the profile page for an
    authenticated viewer with a Staff bit; when the lookup raises, the
    exception leaves the handler. *)
Theorem profile_hidden_below_threshold E user rq w mods mode :
  checked_arg (arg_mods rq) valid_mods "vn" = Some mods ->
  checked_arg (arg_mode rq) valid_modes "std" = Some mode ->
  (fetch_profile E (db w) user = inr None ->
   profile_segment E user rq w = Template "404.html" [])
  ∧
  (∀ u, fetch_profile E (db w) user = inr (Some u) -> u_priv u < 3 ->
     (logged_in w = false -> profile_segment E user rq w = Template "404.html" [])
     ∧
     (∀ ud, logged_in w = true -> session_user_data (session w) = Some ud ->
        (Z.land (sd_priv ud) (Privileges_Staff E) = 0 ->
         profile_segment E user rq w = Template "404.html" [])
        ∧
        (Z.land (sd_priv ud) (Privileges_Staff E) ≠ 0 ->
         profile_segment E user rq w
         = Template "profile.html"
             [("user", TRow (u_name u) (u_id u) (u_priv u) (u_country u));
              ("mode", TStr mode); ("mods", TStr mods)])))
  ∧
  (∀ e, fetch_profile E (db w) user = inl e ->
   profile_segment E user rq w = Raised e).
Proof.
  intros Hmods Hmode. unfold profile_segment, profile_with.
  rewrite Hmods, Hmode. split; [| split].
  - intros ->. reflexivity.
  - intros u -> Hp.
    assert (Hlt : (u_priv u <? 3) = true) by (apply Z.ltb_lt; exact Hp).
    unfold hidden. rewrite Hlt. split.
    + intros ->. reflexivity.
    + intros ud -> ->. cbn [negb andb]. unfold has_flag. split.
      * intros ->. reflexivity.
      * intros Hne. apply Z.eqb_neq in Hne. rewrite Hne. reflexivity.
  - intros e ->. reflexivity.
Qed.

Lemma profile_hidden_below_threshold_witness :
  let rq := mk_request "" "" "" in
  profile_segment sample_externals "99" rq sample_world = Template "404.html" []
  ∧ profile_segment sample_externals "4" rq sample_world = Template "404.html" []
  ∧ profile_segment sample_externals "4" rq (set_session player_session sample_world)
    = Template "404.html" []
  ∧ profile_segment sample_externals "4" rq (set_session staff_session sample_world)
    = Template "profile.html"
        [("user", TRow "Mallory" 4 2 "xx"); ("mode", TStr "std"); ("mods", TStr "vn")].
Proof.
  intros rq.
  pose proof (profile_hidden_below_threshold sample_externals "99" rq sample_world
                "vn" "std" eq_refl eq_refl) as [Hnone _].
  pose proof (profile_hidden_below_threshold sample_externals "4" rq sample_world
                "vn" "std" eq_refl eq_refl) as (_ & Hanon & _).
  pose proof (profile_hidden_below_threshold sample_externals "4" rq
                (set_session player_session sample_world)
                "vn" "std" eq_refl eq_refl) as (_ & Hplayer & _).
  pose proof (profile_hidden_below_threshold sample_externals "4" rq
                (set_session staff_session sample_world)
                "vn" "std" eq_refl eq_refl) as (_ & Hstaff & _).
  split; [| split; [| split]].
  - apply Hnone. reflexivity.
  - apply (Hanon (mk_user 4 "Mallory" "mallory" "m@b.co" "$2b$md5:hunter2hunter2" 2));
      [reflexivity | reflexivity | reflexivity].
  - refine (proj1 (proj2 (Hplayer _ eq_refl _) _ eq_refl eq_refl) eq_refl).
    reflexivity.
  - refine (proj2 (proj2 (Hstaff _ eq_refl _) _ eq_refl eq_refl) _);
      [reflexivity | discriminate].
Defined.

(** C9, as stated, fails: a [mods] value that is given but empty is outside
    the enumeration, and the handler falls back to ["vn"] instead of sending
    the raw payload. *)
Lemma profile_empty_mods_not_rejected :
  ("" ∉ valid_mods) ∧
  profile sample_externals 3
    (with_args None (Some "") (mk_request "" "" "")) sample_world
  = Template "profile.html"
      [("user", TRow "Alice" 3 3 "xx"); ("mode", TStr "std"); ("mods", TStr "vn")].
Proof.
  split; [| vm_compute; reflexivity].
  apply (bool_decide_eq_false_1 ("" ∈ valid_mods)). vm_compute. reflexivity.
Qed.

Lemma checked_arg_rejected arg valid default :
  rejected arg valid -> checked_arg arg valid default = None.
Proof.
  intros (v & -> & Hne & Hin). unfold checked_arg.
  apply String.eqb_neq in Hne. rewrite Hne.
  rewrite bool_decide_eq_false_2 by exact Hin. reflexivity.
Qed.

(** C9, amended: a profile request whose [mods] value, or whose [mode]
    value, is given, not empty and outside its enumeration gets a raw byte
    payload; no other handler ever returns a raw payload. *)
Theorem raw_payload_only_from_profile E cfg :
  (∀ user rq w,
     rejected (arg_mods rq) valid_mods ∨ rejected (arg_mode rq) valid_modes ->
     is_bytes (profile E user rq w) = true)
  ∧
  (∀ w rq salt mode sort mods doc,
     is_bytes home = false ∧ is_bytes (settings w) = false
     ∧ is_bytes leaderboard_nodata = false
     ∧ is_bytes (leaderboard mode sort mods) = false
     ∧ is_bytes (login w) = false
     ∧ is_bytes (fst (login_post E rq w)) = false
     ∧ is_bytes (register cfg w) = false
     ∧ is_bytes (fst (register_post E cfg salt rq w)) = false
     ∧ is_bytes (fst (logout cfg w)) = false
     ∧ is_bytes docs_nodata = false
     ∧ is_bytes (docs E doc) = false
     ∧ is_bytes (discord cfg) = false).
Proof.
  split.
  - intros user rq w [Hmods | Hmode]; unfold profile.
    + rewrite (checked_arg_rejected _ _ _ Hmods). reflexivity.
    + rewrite (checked_arg_rejected _ _ "std" Hmode).
      destruct (checked_arg (arg_mods rq) valid_mods "vn"); reflexivity.
  - intros w rq salt mode sort mods doc.
    repeat split;
      unfold settings, login, login_post, register, register_post, logout,
        docs, flash_with_name, check_password;
      rewrite ?resolve_pw_text;
      repeat match goal with
             | |- context [if ?b then _ else _] => destruct b
             | |- context [match ?x with _ => _ end] => destruct x
             end; reflexivity.
Qed.

Lemma raw_payload_only_from_profile_witness :
  is_bytes (profile sample_externals 3
              (with_args (Some "osu") None (mk_request "" "" "")) sample_world) = true.
Proof.
  apply (proj1 (raw_payload_only_from_profile sample_externals sample_config)).
  right. exists "osu". split; [reflexivity |]. split; [discriminate |].
  apply (bool_decide_eq_false_1 ("osu" ∈ valid_modes)). vm_compute. reflexivity.
Defined.

(** ** Registration: the write phase *)

Lemma register_write_users E salt username email pw addr w :
  users (db (register_write E salt username email pw addr w))
  = (users (db w)
      ++ [{| u_id := next_id (db w); u_name := username;
           u_safe_name := get_safe_name E username; u_email := email;
           u_pw_bcrypt := bcrypt_hashpw E (md5_hexdigest E pw) salt;
           u_priv := default_priv E;
           u_country :=
             if String.eqb addr "127.0.0.1" then "xx"
             else match geolite2_lookup E addr with
                  | Some c => Str.lower c
                  | None => "xx"
                  end;
           u_silence_end := default_silence_end E |}])%list.
Proof. reflexivity. Qed.

Lemma register_write_cache E salt username email pw addr w :
  bcrypt_cache (register_write E salt username email pw addr w)
  = <[bcrypt_hashpw E (md5_hexdigest E pw) salt := md5_hexdigest E pw]> (bcrypt_cache w).
Proof. reflexivity. Qed.

(** A column stays duplicate free when a row is appended whose value no
    present row has. *)
Lemma NoDup_column_snoc (col : user -> string) (l : list user) (r : user) :
  NoDup (map col l) ->
  existsb (fun u => String.eqb (col u) (col r)) l = false ->
  NoDup (map col (l ++ [r])).
Proof.
  intros Hnd Hfresh. rewrite map_app. cbn [map].
  apply NoDup_app. split; [exact Hnd |]. split.
  - intros x Hx Hr. apply list_elem_of_singleton in Hr. subst x.
    apply list_elem_of_fmap in Hx. destruct Hx as (u & Heq & Hu).
    assert (Ht : existsb (fun u => String.eqb (col u) (col r)) l = true).
    { apply existsb_exists. exists u. split.
      - apply list_elem_of_In. exact Hu.
      - apply String.eqb_eq. symmetry. exact Heq. }
    congruence.
  - apply NoDup_singleton.
Qed.

(** The write phase taken alone (the handler does not reach it: line 233
    raises first).  Whatever the normalisation, it leaves two rows with the
    same safe name as soon as a present row carries the safe name of the
    submitted username. *)
Lemma register_write_safe_name_clash E salt username email pw addr w :
  safe_name_free (db w) (get_safe_name E username) = false ->
  ¬ unique_safe_names (db (register_write E salt username email pw addr w)).
Proof.
  intros Hclash Hnd. unfold unique_safe_names in Hnd.
  rewrite register_write_users, map_app in Hnd. cbn [map u_safe_name] in Hnd.
  apply NoDup_app in Hnd. destruct Hnd as (_ & Hdisj & _).
  apply negb_false_iff, existsb_exists in Hclash.
  destruct Hclash as (u & Hin & Heq). apply String.eqb_eq in Heq.
  apply (Hdisj (u_safe_name u)).
  - apply list_elem_of_fmap. exists u. split; [reflexivity |].
    apply list_elem_of_In. exact Hin.
  - rewrite Heq. apply list_elem_of_here.
Qed.

(** The write phase taken alone keeps the display names and the emails
    pairwise distinct when the two pre-checks passed, and the safe names
    when no row carries the safe name of the submitted username. *)
Lemma register_write_preserves_uniqueness E salt username email pw addr w :
  unique_names (db w) -> unique_safe_names (db w) -> unique_emails (db w) ->
  name_taken (db w) username = false ->
  email_taken (db w) email = false ->
  safe_name_free (db w) (get_safe_name E username) = true ->
  let w' := register_write E salt username email pw addr w in
  unique_names (db w') ∧ unique_safe_names (db w') ∧ unique_emails (db w').
Proof.
  intros Hn Hs He Hname Hemail Hfree w'. subst w'.
  unfold unique_names, unique_safe_names, unique_emails.
  rewrite register_write_users.
  apply negb_true_iff in Hfree.
  split; [| split].
  - apply (NoDup_column_snoc u_name); assumption.
  - apply (NoDup_column_snoc u_safe_name); assumption.
  - apply (NoDup_column_snoc u_email); assumption.
Qed.




(** ** The bcrypt cache *)

Lemma cache_wf_insert E c h d :
  cache_wf E c -> bcrypt_checkpw E d h = Some true -> cache_wf E (<[h := d]> c).
Proof.
  intros Hwf Hok h' d' Hl. destruct (decide (h = h')) as [<- | Hne].
  - rewrite lookup_insert_eq in Hl. congruence.
  - rewrite lookup_insert_ne in Hl by exact Hne. eauto.
Qed.

Lemma check_password_cache_wf E d h w :
  cache_wf E (bcrypt_cache w) ->
  cache_wf E (bcrypt_cache (snd (check_password E d h w))).
Proof.
  intros Hwf. unfold check_password.
  destruct (bcrypt_cache w !! h); [exact Hwf |].
  destruct (bcrypt_checkpw E d h) as [[|] |] eqn:Hok; try exact Hwf.
  apply cache_wf_insert; assumption.
Qed.

(** The cache that [login_post] leaves is the one its password check
    left, or the one it was given. *)
Lemma login_post_cache E rq w :
  bcrypt_cache (snd (login_post E rq w)) = bcrypt_cache w ∨
  ∃ u, bcrypt_cache (snd (login_post E rq w))
       = bcrypt_cache (snd (check_password E (md5_hexdigest E (form_password rq))
                              (u_pw_bcrypt u) w)).
Proof.
  unfold login_post.
  destruct (logged_in w); [left; reflexivity |].
  destruct (fetch_by_safe_name _ _) as [u |]; [| left; reflexivity].
  destruct (u_id u =? 1); [left; reflexivity |].
  right. exists u.
  destruct (check_password _ _ _ w) as [[[|] |] w1]; cbn [snd]; try reflexivity.
  repeat match goal with |- context [if ?b then _ else _] => destruct b end;
    reflexivity.
Qed.

(** C10: provided a hash made by [bcrypt.hashpw] verifies the digest it was
    made from, a cache in which every digest verifies against its key
    keeps that property through [login_post], through the write phase of
    registration and through [register_post]: [login_post] stores a pair
    only when [bcrypt.checkpw] accepted it, the write phase stores a digest
    under the hash just made from it. *)
Theorem bcrypt_cache_wf_preserved E w :
  (∀ d salt, bcrypt_checkpw E d (bcrypt_hashpw E d salt) = Some true) ->
  cache_wf E (bcrypt_cache w) ->
  (∀ rq, cache_wf E (bcrypt_cache (snd (login_post E rq w))))
  ∧ (∀ salt username email pw addr,
       cache_wf E (bcrypt_cache (register_write E salt username email pw addr w)))
  ∧ (∀ cfg salt rq, cache_wf E (bcrypt_cache (snd (register_post E cfg salt rq w)))).
Proof.
  intros Hhash Hwf. split; [| split].
  - intros rq. destruct (login_post_cache E rq w) as [-> | (u & ->)].
    + exact Hwf.
    + apply check_password_cache_wf. exact Hwf.
  - intros salt username email pw addr. rewrite register_write_cache.
    apply cache_wf_insert; [exact Hwf | apply Hhash].
  - intros cfg salt rq. rewrite register_post_world. exact Hwf.
Qed.

Lemma sample_hashpw_verifies d salt :
  bcrypt_checkpw sample_externals d (bcrypt_hashpw sample_externals d salt) = Some true.
Proof.
  cbn [sample_externals bcrypt_checkpw bcrypt_hashpw].
  rewrite String.eqb_refl. cbv [String.append]. reflexivity.
Qed.

Lemma cache_wf_empty E : cache_wf E ∅.
Proof. intros h d Hl. rewrite lookup_empty in Hl. discriminate. Qed.

Lemma bcrypt_cache_wf_preserved_witness :
  cache_wf sample_externals
    (bcrypt_cache (snd (login_post sample_externals
                          (mk_request "Alice" "" "Str0ngPW!") sample_world)))
  ∧ cache_wf sample_externals
      (bcrypt_cache (register_write sample_externals "salt" "Bob" "bob@b.co"
                       "Str0ngPW!" "127.0.0.1" sample_world)).
Proof.
  pose proof (bcrypt_cache_wf_preserved sample_externals sample_world
                sample_hashpw_verifies (cache_wf_empty sample_externals))
    as (Hlogin & Hwrite & _).
  split; [apply Hlogin | apply Hwrite].
Defined.

(** ** Login: the cached and the uncached password check *)

(** What a successful first login through [bcrypt.checkpw] tells. *)
Lemma login_post_success_inv E rq w u :
  fetch_by_safe_name (db w) (get_safe_name E (form_username rq)) = Some u ->
  bcrypt_cache w !! u_pw_bcrypt u = None ->
  fst (login_post E rq w) = welcome_back rq ->
  logged_in w = false ∧ (u_id u =? 1) = false
  ∧ bcrypt_checkpw E (md5_hexdigest E (form_password rq)) (u_pw_bcrypt u) = Some true
  ∧ has_flag (u_priv u) (Privileges_Verified E) = true
  ∧ has_flag (u_priv u) (Privileges_Normal E) = true.
Proof.
  intros Hf Hmiss. unfold login_post, welcome_back, flash_with_name.
  destruct (logged_in w).
  { destruct (session_user_data (session w)); discriminate. }
  rewrite Hf. destruct (u_id u =? 1); [discriminate |].
  unfold check_password. rewrite Hmiss.
  destruct (bcrypt_checkpw E _ _) as [[|] |]; try discriminate.
  destruct (has_flag (u_priv u) (Privileges_Verified E)); [| discriminate].
  destruct (has_flag (u_priv u) (Privileges_Normal E)); [| discriminate].
  intros _. repeat split.
Qed.

(** With the digest [d] cached under [h], the comparison of line 121 accepts
    the digests that [bcrypt.checkpw] accepts, when [d] is the only digest
    that verifies against [h]. *)
Lemma cached_comparison_agrees E d d' h :
  bcrypt_checkpw E d h = Some true ->
  (∀ x, bcrypt_checkpw E x h = Some true -> x = d) ->
  String.eqb d' d = true ↔ bcrypt_checkpw E d' h = Some true.
Proof.
  intros Hd Huniq. split.
  - intros Heq. apply String.eqb_eq in Heq. subst d'. exact Hd.
  - intros Hd'. apply String.eqb_eq. apply Huniq. exact Hd'.
Qed.

(** C2, as stated, fails in two ways.  The second POST of the client that
    just logged in is turned away at line 90 with "already logged in",
    before any look at the cache.  And the comparison with the cached
    digest accepts that digest only: with a bcrypt that accepts a second
    digest for the hash, a password that the uncached path lets in is
    refused once the hash is cached. *)
Lemma login_post_cached_path_differs :
  let rq := mk_request "Alice" "" "Str0ngPW!" in
  let rq' := with_password "Str0ngPW?" rq in
  (let first := login_post sample_externals rq sample_world in
   fst first = welcome_back rq
   ∧ fst (login_post sample_externals rq (snd first))
     = Flash "error" "Hey! You're already logged in Alice!" "home")
  ∧
  (let E := short_sighted_externals in
   let first := login_post E rq short_sighted_world in
   let w2 := next_attempt short_sighted_world (snd first) in
   fst first = welcome_back rq
   ∧ bcrypt_checkpw E (md5_hexdigest E "Str0ngPW?") "$2b$md5:Str0" = Some true
   ∧ fst (login_post E rq' short_sighted_world) = welcome_back rq'
   ∧ fst (login_post E rq' w2) = Flash "error" "Password is incorrect." "login").
Proof. vm_compute. repeat split. Qed.

(** C2, amended: an account's hash is not a key of the cache and a first
    login succeeds (through [bcrypt.checkpw], called once).  Then the cache
    maps the hash to the md5 digest of the password; a second attempt with
    the same form from a session that is not authenticated, made with the
    store and the cache the first one left, finds the hash in the cache,
    calls [bcrypt.checkpw] no further time and ends with the same response
    and the same session as the first; and for every password the check
    through the cache calls [bcrypt.checkpw] no further time, accepts
    exactly the cached digest, and so accepts only what [bcrypt.checkpw]
    accepts.  When moreover the cached digest is the only one that verifies
    against the hash, the check through the cache accepts all that
    [bcrypt.checkpw] accepts, and the handler answers with the cache as it
    does without it. *)
Theorem login_post_second_attempt_cached E rq w u :
  fetch_by_safe_name (db w) (get_safe_name E (form_username rq)) = Some u ->
  bcrypt_cache w !! u_pw_bcrypt u = None ->
  fst (login_post E rq w) = welcome_back rq ->
  let first := login_post E rq w in
  let w2 := next_attempt w (snd first) in
  checkpw_calls (snd first) = S (checkpw_calls w)
  ∧ bcrypt_cache (snd first) !! u_pw_bcrypt u
    = Some (md5_hexdigest E (form_password rq))
  ∧ fst (login_post E rq w2) = fst first
  ∧ session (snd (login_post E rq w2)) = session (snd first)
  ∧ checkpw_calls (snd (login_post E rq w2)) = checkpw_calls (snd first)
  ∧ (∀ pw,
       snd (check_password E (md5_hexdigest E pw) (u_pw_bcrypt u) w2) = w2
       ∧ (fst (check_password E (md5_hexdigest E pw) (u_pw_bcrypt u) w2) = Some true
          ↔ md5_hexdigest E pw = md5_hexdigest E (form_password rq))
       ∧ (fst (check_password E (md5_hexdigest E pw) (u_pw_bcrypt u) w2) = Some true
          -> bcrypt_checkpw E (md5_hexdigest E pw) (u_pw_bcrypt u) = Some true))
  ∧ ((∀ x, bcrypt_checkpw E x (u_pw_bcrypt u) = Some true ->
           x = md5_hexdigest E (form_password rq)) ->
     ∀ pw,
       (bcrypt_checkpw E (md5_hexdigest E pw) (u_pw_bcrypt u) = Some true
        -> fst (check_password E (md5_hexdigest E pw) (u_pw_bcrypt u) w2) = Some true)
       ∧ (is_Some (bcrypt_checkpw E (md5_hexdigest E pw) (u_pw_bcrypt u)) ->
          fst (login_post E (with_password pw rq) w2)
          = fst (login_post E (with_password pw rq) w)
          ∧ session (snd (login_post E (with_password pw rq) w2))
            = session (snd (login_post E (with_password pw rq) w)))).
Proof.
  intros Hf Hmiss Hsucc.
  destruct (login_post_success_inv E rq w u Hf Hmiss Hsucc)
    as (Hl & Hid & Hok & Hv & Hn).
  set (d := md5_hexdigest E (form_password rq)) in *.
  set (h := u_pw_bcrypt u) in *.
  set (s := {| authenticated := Some true;
               session_user_data := Some
                 {| sd_id := u_id u; sd_name := u_name u; sd_priv := u_priv u;
                    sd_silence_end := u_silence_end u;
                    sd_is_staff := Z.land (u_priv u) (Privileges_Staff E) |} |}).
  assert (Hfirst : login_post E rq w
                   = (welcome_back rq,
                      set_session s (cache_store h d (count_checkpw w)))).
  { unfold login_post. rewrite Hl, Hf, Hid. unfold check_password.
    fold h. rewrite Hmiss. fold d. rewrite Hok. rewrite Hv, Hn. reflexivity. }
  cbv zeta. rewrite Hfirst. cbn [fst snd].
  set (w2 := next_attempt w _).
  assert (Hl2 : logged_in w2 = false) by exact Hl.
  assert (Hdb2 : db w2 = db w) by reflexivity.
  assert (Hhit : bcrypt_cache w2 !! h = Some d).
  { unfold w2, next_attempt, set_session, cache_store. cbn.
    apply lookup_insert_eq. }
  assert (Hcheck : ∀ d', check_password E d' h w2 = (Some (String.eqb d' d), w2)).
  { intros d'. unfold check_password. rewrite Hhit. reflexivity. }
  assert (Hsecond : login_post E rq w2 = (welcome_back rq, set_session s w2)).
  { unfold login_post. rewrite Hl2, Hdb2, Hf, Hid. fold d h.
    rewrite Hcheck, String.eqb_refl, Hv, Hn. reflexivity. }
  split; [reflexivity |]. split.
  { cbn. apply lookup_insert_eq. }
  rewrite Hsecond. cbn [fst snd].
  split; [reflexivity |]. split; [reflexivity |]. split; [reflexivity |].
  split.
  - intros pw. rewrite Hcheck. cbn [fst snd].
    split; [reflexivity |]. split.
    + split.
      * intros [= Heq]. apply String.eqb_eq. exact Heq.
      * intros Heq. rewrite Heq, String.eqb_refl. reflexivity.
    + intros [= Heq]. apply String.eqb_eq in Heq. rewrite Heq. exact Hok.
  - intros Huniq pw. rewrite Hcheck. cbn [fst snd].
    pose proof (cached_comparison_agrees E d (md5_hexdigest E pw) h Hok Huniq)
      as Hagree.
    split.
    { intros Hacc. apply Hagree in Hacc. rewrite Hacc. reflexivity. }
    intros [b Hb].
    assert (Heqb : String.eqb (md5_hexdigest E pw) d = b).
    { destruct b.
      - apply Hagree. exact Hb.
      - apply not_true_is_false. intros He. apply Hagree in He. congruence. }
    unfold login_post. cbn [form_username form_password with_password].
    rewrite Hl, Hl2, Hdb2, Hf, Hid. fold h. rewrite Hcheck, Heqb.
    unfold check_password. rewrite Hmiss, Hb.
    destruct b.
    + rewrite Hv, Hn. split; reflexivity.
    + split; reflexivity.
Qed.

Lemma login_post_second_attempt_cached_witness :
  let rq := mk_request "Alice" "" "Str0ngPW!" in
  let first := login_post sample_externals rq sample_world in
  let w2 := next_attempt sample_world (snd first) in
  fst first = welcome_back rq
  ∧ checkpw_calls (snd first) = 1%nat
  ∧ fst (login_post sample_externals rq w2) = fst first
  ∧ checkpw_calls (snd (login_post sample_externals rq w2)) = checkpw_calls (snd first).
Proof.
  intros rq first w2.
  assert (Hsucc : fst (login_post sample_externals rq sample_world) = welcome_back rq)
    by (vm_compute; reflexivity).
  pose proof (login_post_second_attempt_cached sample_externals rq sample_world
                (mk_user 3 "Alice" "alice" "a@b.co" "$2b$md5:Str0ngPW!" 3)
                eq_refl eq_refl Hsucc)
    as (Hcalls & _ & Hresp & _ & Hcalls2 & _).
  split; [exact Hsucc |]. split; [exact Hcalls |]. split; [exact Hresp | exact Hcalls2].
Defined.

(** The stand-in of the sample environment accepts one digest per hash. *)
Lemma sample_checkpw_unique d x :
  bcrypt_checkpw sample_externals x ("$2b$" +:+ d) = Some true -> x = d.
Proof.
  cbn [sample_externals bcrypt_checkpw]. cbv [String.append]. cbn.
  intros [= H]. apply String.eqb_eq in H. congruence.
Qed.

(** * Further properties *)

(** ** The patterns *)

Lemma append_empty_inv (a b : string) :
  a +:+ b = EmptyString -> a = EmptyString ∧ b = EmptyString.
Proof. destruct a; cbv [String.append]; [intros ->; split; reflexivity | discriminate]. Qed.

Lemma append_cons (c : ascii) (a b : string) :
  String c a +:+ b = String c (a +:+ b).
Proof. reflexivity. Qed.

Lemma append_nil_l (b : string) : EmptyString +:+ b = b.
Proof. reflexivity. Qed.

Ltac close_parts :=
  repeat split; first [lia | assumption | reflexivity | tauto].

(** Bounded repetition, read as a decomposition of the string. *)
Lemma repeat_spec (p : ascii -> bool) (k : string -> bool) (K : string -> Prop) :
  (∀ r, k r = true ↔ K r) ->
  ∀ hi lo s,
    Re.repeat p lo hi k s = true
    ↔ ∃ body rest, s = body +:+ rest
                   ∧ (lo <= String.length body <= hi)%nat
                   ∧ str_all p body = true ∧ K rest.
Proof.
  intros HK. induction hi as [| hi IH]; intros lo s.
  - cbn [Re.repeat]. rewrite andb_true_iff, Nat.eqb_eq, HK. split.
    + intros [-> Hk]. exists EmptyString, s. cbn. close_parts.
    + intros (body & rest & -> & [Hlo Hhi] & _ & Hk).
      destruct body; [| cbn in Hhi; lia]. cbn in Hlo. split; [lia | exact Hk].
  - cbn [Re.repeat]. destruct s as [| c s'].
    + rewrite andb_true_iff, Nat.eqb_eq, HK. split.
      * intros [-> Hk]. exists EmptyString, EmptyString.
        cbn. close_parts.
      * intros (body & rest & Heq & [Hlo _] & _ & Hk).
        symmetry in Heq. apply append_empty_inv in Heq. destruct Heq as [-> ->].
        cbn in Hlo. split; [lia | exact Hk].
    + destruct (p c) eqn:Hpc.
      * rewrite orb_true_iff, andb_true_iff, Nat.eqb_eq, HK, IH. split.
        -- intros [(body & rest & -> & [Hlo Hhi] & Hall & Hk) | [-> Hk]].
           ++ exists (String c body), rest. cbn [String.length str_all].
              rewrite Hpc, Hall. close_parts.
           ++ exists EmptyString, (String c s'). cbn. close_parts.
        -- intros (body & rest & Heq & [Hlo Hhi] & Hall & Hk).
           destruct body as [| c' body'].
           ++ right. rewrite append_nil_l in Heq. subst rest.
              cbn in Hlo. split; [lia | exact Hk].
           ++ left. rewrite append_cons in Heq. injection Heq as -> ->.
              cbn [String.length str_all] in *. apply andb_true_iff in Hall.
              exists body', rest. close_parts.
      * rewrite andb_true_iff, Nat.eqb_eq, HK. split.
        -- intros [-> Hk]. exists EmptyString, (String c s').
           cbn. close_parts.
        -- intros (body & rest & Heq & [Hlo Hhi] & Hall & Hk).
           destruct body as [| c' body'].
           ++ rewrite append_nil_l in Heq. subst rest. cbn in Hlo.
              split; [lia | exact Hk].
           ++ rewrite append_cons in Heq. injection Heq as -> ->.
              cbn [str_all] in Hall. rewrite Hpc in Hall. discriminate.
Qed.

Lemma at_end_spec (s : string) :
  Re.at_end s = true ↔ s = EmptyString ∨ s = newline.
Proof.
  unfold Re.at_end, newline, newline_char. destruct s as [| c [| c' s']].
  - split; [left; reflexivity | reflexivity].
  - rewrite N.eqb_eq. split.
    + intros H. right. f_equal. rewrite <- (ascii_N_embedding c). unfold Str.code in H.
      rewrite H. reflexivity.
    + intros [H | H]; [discriminate |]. injection H as ->. reflexivity.
  - split; [discriminate | intros [H | H]; discriminate].
Qed.

(** The backtracking matcher accepts exactly the strings the pattern
    denotes. *)
Lemma re_match_denotes (pat : list Re.item) :
  ∀ s, Re.re_match pat s = true ↔ denotes pat s.
Proof.
  induction pat as [| [p lo hi | c |] pat IH]; intros s; cbn [Re.re_match denotes].
  - tauto.
  - apply repeat_spec. exact IH.
  - destruct s as [| c' s'].
    + split; [discriminate | intros (rest & H & _); discriminate].
    + rewrite andb_true_iff, IH. split.
      * intros [Hc Hd]. apply Ascii.eqb_eq in Hc. subst c'. exists s'. tauto.
      * intros (rest & Heq & Hd). injection Heq as -> ->.
        split; [apply Ascii.eqb_refl | exact Hd].
  - rewrite andb_true_iff, at_end_spec, IH. tauto.
Qed.

Lemma append_empty_r (a : string) : a +:+ EmptyString = a.
Proof. induction a as [| c a IH]; [reflexivity |]. rewrite append_cons, IH. reflexivity. Qed.

Lemma length_append (a b : string) :
  String.length (a +:+ b) = (String.length a + String.length b)%nat.
Proof.
  induction a as [| c a IH]; [reflexivity |].
  rewrite append_cons. cbn [String.length]. rewrite IH. reflexivity.
Qed.

Lemma contains_append (c : ascii) (a b : string) :
  Str.contains c (a +:+ b) = Str.contains c a || Str.contains c b.
Proof.
  induction a as [| c' a IH]; [reflexivity |].
  rewrite append_cons. cbn [Str.contains]. rewrite IH, orb_assoc. reflexivity.
Qed.

Lemma str_all_contains (p : ascii -> bool) (c : ascii) (s : string) :
  str_all p s = true -> Str.contains c s = true -> p c = true.
Proof.
  induction s as [| c' s IH]; cbn [str_all Str.contains]; [discriminate |].
  intros Hall Hc. apply andb_true_iff in Hall. destruct Hall as [Hp Hall].
  apply orb_true_iff in Hc. destruct Hc as [Hc | Hc]; [| exact (IH Hall Hc)].
  apply Ascii.eqb_eq in Hc. subst c'. exact Hp.
Qed.

Lemma contains_newline (c : ascii) :
  Str.contains c newline = true -> c = newline_char.
Proof.
  unfold newline. cbn [Str.contains]. rewrite orb_false_r. apply Ascii.eqb_eq.
Qed.

(** X1: the username pattern accepts exactly the strings made of 2 to 15
    characters of the class [[\w \[\]-]], and those strings followed by one
    newline. *)
Theorem username_rgx_accepts (s : string) :
  Re.re_match _username_rgx s = true
  ↔ ∃ body, (s = body ∨ s = body +:+ newline)
            ∧ (2 <= String.length body <= 15)%nat
            ∧ str_all username_class body = true.
Proof.
  rewrite re_match_denotes. unfold _username_rgx. cbn [denotes]. split.
  - intros (body & rest & -> & Hlen & Hall & [-> | ->] & _); exists body.
    + rewrite append_empty_r. tauto.
    + tauto.
  - intros (body & [-> | ->] & Hlen & Hall).
    + exists body, EmptyString. rewrite append_empty_r. tauto.
    + exists body, newline. tauto.
Qed.

Lemma username_rgx_accepts_witness :
  Re.re_match _username_rgx ("Alice" +:+ newline) = true.
Proof.
  apply username_rgx_accepts. exists "Alice".
  split; [right; reflexivity |]. split; [cbn; lia | reflexivity].
Defined.

(** X2: the email pattern accepts exactly the strings
    [local@domain.tld], optionally followed by one newline, where [local]
    has 1 to 200 characters other than [@] and whitespace, and [domain]
    (1 to 30 characters) and [tld] (1 to 24) have characters other than
    [@], [.] and whitespace. *)
Theorem email_rgx_accepts (s : string) :
  Re.re_match _email_rgx s = true
  ↔ ∃ local domain tld tail,
      s = local +:+ "@" +:+ domain +:+ "." +:+ tld +:+ tail
      ∧ (tail = EmptyString ∨ tail = newline)
      ∧ (1 <= String.length local <= 200)%nat
      ∧ str_all email_local_class local = true
      ∧ (1 <= String.length domain <= 30)%nat
      ∧ str_all email_label_class domain = true
      ∧ (1 <= String.length tld <= 24)%nat
      ∧ str_all email_label_class tld = true.
Proof.
  rewrite re_match_denotes. unfold _email_rgx. cbn [denotes]. split.
  - intros (loc & r1 & -> & Hl1 & Ha1 & r2 & -> & dom & r3 & -> & Hl2 & Ha2
            & r4 & -> & tld & r5 & -> & Hl3 & Ha3 & Hend & _).
    exists loc, dom, tld, r5. repeat split; try tauto; lia.
  - intros (loc & dom & tld & tail & -> & Hend & Hl1 & Ha1 & Hl2 & Ha2 & Hl3 & Ha3).
    exists loc, ("@" +:+ dom +:+ "." +:+ tld +:+ tail).
    split; [reflexivity |]. split; [exact Hl1 |]. split; [exact Ha1 |].
    exists (dom +:+ "." +:+ tld +:+ tail). split; [reflexivity |].
    exists dom, ("." +:+ tld +:+ tail).
    split; [reflexivity |]. split; [exact Hl2 |]. split; [exact Ha2 |].
    exists (tld +:+ tail). split; [reflexivity |].
    exists tld, tail. tauto.
Qed.

Lemma email_rgx_accepts_witness :
  Re.re_match _email_rgx "a@b.co" = true.
Proof.
  apply email_rgx_accepts. exists "a", "b", "co", EmptyString.
  split; [reflexivity |]. split; [left; reflexivity |].
  cbn. repeat split; lia.
Defined.

(** ** Registration: what the syntax checks refuse *)

(** X3: for a client that is not logged in, with registration enabled, a
    username of fewer than 2 or more than 16 characters, or with a
    character other than the newline outside the class [[\w \[\]-]], is
    refused with "Invalid username syntax." and nothing is written. *)
Theorem register_post_invalid_username E cfg salt rq w :
  logged_in w = false ->
  registration cfg = true ->
  (Str.len (form_username rq) < 2 ∨ 16 < Str.len (form_username rq)
   ∨ ∃ c, Str.contains c (form_username rq) = true
          ∧ username_class c = false ∧ c ≠ newline_char) ->
  register_post E cfg salt rq w
  = (Flash "error" "Invalid username syntax." "register", w).
Proof.
  intros Hl Hr Hbad.
  assert (Hno : Re.re_match _username_rgx (form_username rq) = false).
  { apply not_true_is_false. intros Hm. apply re_match_denotes in Hm.
    unfold _username_rgx in Hm. cbn [denotes] in Hm.
    destruct Hm as (body & rest & Hs & Hlen & Hall & Hend & _).
    assert (Hlen' : (2 <= String.length (form_username rq) <= 16)%nat).
    { rewrite Hs, length_append. destruct Hend as [-> | ->]; cbn; lia. }
    unfold Str.len in Hbad. destruct Hbad as [Hb | [Hb | (c & Hc & Hp & Hn)]]; try lia.
    assert (Hin : Str.contains c body = true).
    { rewrite Hs, contains_append in Hc. apply orb_true_iff in Hc.
      destruct Hc as [Hc | Hc]; [exact Hc |].
      destruct Hend as [-> | ->]; [discriminate |].
      apply contains_newline in Hc. contradiction. }
    rewrite (str_all_contains _ _ _ Hall Hin) in Hp. discriminate. }
  unfold register_post. rewrite Hl, Hr, Hno. reflexivity.
Qed.

Lemma register_post_invalid_username_witness :
  register_post sample_externals sample_config "salt"
    (mk_request "bad!name" "bob@b.co" "Str0ngPW!") sample_world
  = (Flash "error" "Invalid username syntax." "register", sample_world).
Proof.
  apply register_post_invalid_username; [reflexivity | reflexivity |].
  right. right. exists "!"%char.
  split; [reflexivity |]. split; [reflexivity | discriminate].
Defined.

(** X4: once the username checks passed, an email without [@], without
    [.], or with a whitespace character other than the newline is refused
    with "Invalid email syntax." and nothing is written. *)
Theorem register_post_invalid_email E cfg salt rq w :
  username_accepted cfg rq w ->
  name_taken (db w) (form_username rq) = false ->
  (Str.contains "@" (form_email rq) = false
   ∨ Str.contains "." (form_email rq) = false
   ∨ ∃ c, Str.contains c (form_email rq) = true
          ∧ Str.is_space c = true ∧ c ≠ newline_char) ->
  register_post E cfg salt rq w
  = (Flash "error" "Invalid email syntax." "register", w).
Proof.
  intros (Hl & Hr & Hu & Hs & Hd) Hn Hbad.
  assert (Hno : Re.re_match _email_rgx (form_email rq) = false).
  { apply not_true_is_false. intros Hm. apply re_match_denotes in Hm.
    unfold _email_rgx in Hm. cbn [denotes] in Hm.
    destruct Hm as (loc & r1 & Heq & _ & Ha1 & r2 & -> & dom & r3 & -> & _ & Ha2
                    & r4 & -> & tld & tail & -> & _ & Ha3 & Hend & _).
    change (form_email rq = loc +:+ "@" +:+ dom +:+ "." +:+ tld +:+ tail) in Heq.
    rewrite Heq in Hbad. clear Heq.
    destruct Hbad as [Hb | [Hb | (c & Hc & Hsp & Hnl)]].
    - rewrite !contains_append in Hb. cbn [Str.contains] in Hb.
      rewrite Ascii.eqb_refl in Hb. cbn in Hb.
      rewrite orb_true_r in Hb. discriminate.
    - rewrite !contains_append in Hb. cbn [Str.contains] in Hb.
      rewrite Ascii.eqb_refl in Hb. cbn in Hb.
      rewrite !orb_true_r in Hb. discriminate.
    - assert (Hcls : ∀ s, str_all email_local_class s = true
                          ∨ str_all email_label_class s = true ->
                          Str.contains c s = false).
      { intros s Hs'. apply not_true_is_false. intros Hin.
        destruct Hs' as [Hs' | Hs'];
          pose proof (str_all_contains _ _ _ Hs' Hin) as Hp;
          unfold email_local_class, email_label_class in Hp;
          rewrite Hsp in Hp; rewrite ?orb_true_r in Hp; cbn in Hp; discriminate. }
      rewrite !contains_append in Hc. cbn [Str.contains] in Hc.
      rewrite (Hcls loc), (Hcls dom), (Hcls tld) in Hc by tauto.
      rewrite !orb_false_r, !orb_false_l in Hc.
      apply orb_true_iff in Hc. destruct Hc as [Hc | Hc].
      + apply Ascii.eqb_eq in Hc. subst c. discriminate.
      + apply orb_true_iff in Hc. destruct Hc as [Hc | Hc].
        * apply Ascii.eqb_eq in Hc. subst c. discriminate.
        * destruct Hend as [-> | ->]; [discriminate |].
          apply contains_newline in Hc. contradiction. }
  unfold register_post. rewrite Hl, Hr, Hu, Hs, Hd, Hn, Hno. reflexivity.
Qed.

Lemma register_post_invalid_email_witness :
  register_post sample_externals sample_config "salt"
    (mk_request "Bob" "bob at b.co" "Str0ngPW!") sample_world
  = (Flash "error" "Invalid email syntax." "register", sample_world).
Proof.
  apply register_post_invalid_email.
  - repeat split; reflexivity.
  - reflexivity.
  - left. reflexivity.
Defined.

(** ** Registration: what the handler never does *)

(** On a form that carries the three fields the handlers are the ones
    used above. *)
Lemma register_post_form_of E cfg salt rq w :
  register_post_form E cfg salt (form_of rq) (remote_addr rq) w
  = register_post E cfg salt rq w.
Proof. reflexivity. Qed.

Lemma login_post_form_of E rq w :
  login_post_form E (form_of rq) w = login_post E rq w.
Proof. reflexivity. Qed.

Example register_post_form_samples :
  map (fun form => fst (register_post_form sample_externals sample_config "salt"
                          form "127.0.0.1" sample_world))
      [{| get_username := None; get_email := None; get_password := None |};
       {| get_username := Some "x"; get_email := None; get_password := None |};
       {| get_username := Some "Bob"; get_email := None; get_password := None |};
       {| get_username := Some "Bob"; get_email := Some "bob@b.co";
          get_password := None |};
       {| get_username := Some "Bob"; get_email := Some "bob@b.co";
          get_password := Some "Str0ngPW!" |}]
  = [Raised (TypeError "expected string or bytes-like object");
     Flash "error" "Invalid username syntax." "register";
     Raised (TypeError "expected string or bytes-like object");
     Raised (TypeError "object of type 'NoneType' has no len()");
     Raised (NameError "pw_text")].
Proof. vm_compute. reflexivity. Qed.

(** X5: whatever the form (with or without its fields), the peer address,
    the session and the configuration, [register_post] returns the world it
    was given and never renders "verify.html": it ends in an error flash,
    in the [NameError] of line 233, in the [TypeError] of a check that
    reads an absent field, or in the [KeyError] of a session without
    ['user_data']. *)
Theorem register_post_never_registers E cfg salt form addr w :
  snd (register_post_form E cfg salt form addr w) = w
  ∧ fst (register_post_form E cfg salt form addr w) ≠ Template "verify.html" []
  ∧ ((∃ msg t, fst (register_post_form E cfg salt form addr w) = Flash "error" msg t)
     ∨ fst (register_post_form E cfg salt form addr w) = Raised (NameError "pw_text")
     ∨ (∃ msg, fst (register_post_form E cfg salt form addr w) = Raised (TypeError msg))
     ∨ fst (register_post_form E cfg salt form addr w) = Raised (KeyError "user_data")).
Proof.
  unfold register_post_form, flash_with_name.
  destruct (get_username form) as [username |], (get_email form) as [email |],
    (get_password form) as [pw_txt |];
    rewrite ?resolve_pw_text;
    repeat match goal with
           | |- context [if ?b then _ else _] => destruct b
           | |- context [match session_user_data ?x with _ => _ end] =>
               destruct (session_user_data x)
           end; cbn [fst snd];
    (split; [reflexivity |]); (split; [discriminate |]); eauto 6.
Qed.

(** X6: when the page of GET /register, or of GET /login, is refused, the
    POST to the same path is refused with the same response, before the
    form is read, and changes nothing. *)
Theorem get_post_guards_agree E cfg salt rq w :
  (register cfg w ≠ Template "register.html" [] ->
   register_post E cfg salt rq w = (register cfg w, w))
  ∧ (login w ≠ Template "login.html" [] ->
     login_post E rq w = (login w, w)).
Proof.
  split.
  - unfold register, register_post. destruct (logged_in w); [reflexivity |].
    destruct (registration cfg); cbn [negb]; [| reflexivity].
    intros H. contradiction H. reflexivity.
  - unfold login, login_post. destruct (logged_in w); [reflexivity |].
    intros H. contradiction H. reflexivity.
Qed.

Lemma get_post_guards_agree_witness :
  let w := set_session player_session sample_world in
  register_post sample_externals sample_config "salt"
    (mk_request "Bob" "bob@b.co" "Str0ngPW!") w
  = (Flash "error" "Hey! You're already registered and logged in Alice!" "home", w)
  ∧ login_post sample_externals (mk_request "Alice" "" "Str0ngPW!") w
    = (Flash "error" "Hey! You're already logged in Alice!" "home", w).
Proof.
  intros w.
  pose proof (get_post_guards_agree sample_externals sample_config "salt"
                (mk_request "Bob" "bob@b.co" "Str0ngPW!") w) as [Hreg _].
  pose proof (get_post_guards_agree sample_externals sample_config "salt"
                (mk_request "Alice" "" "Str0ngPW!") w) as [_ Hlog].
  split; [apply Hreg | apply Hlog]; discriminate.
Defined.

(** ** Registration: the write phase, continued *)

Lemma find_snoc {A : Type} (f : A -> bool) (l : list A) (r : A) :
  find f (l ++ [r])
  = match find f l with
    | Some x => Some x
    | None => if f r then Some r else None
    end.
Proof.
  induction l as [| x l IH]; [reflexivity |].
  cbn [app find]. destruct (f x); [reflexivity | exact IH].
Qed.

Lemma find_none_existsb {A : Type} (f : A -> bool) (l : list A) :
  existsb f l = false -> find f l = None.
Proof.
  induction l as [| x l IH]; [reflexivity |].
  cbn [existsb find]. destruct (f x); [discriminate | exact IH].
Qed.

(** The row the write phase adds. *)
Lemma register_write_fetch E salt username email pw addr w :
  safe_name_free (db w) (get_safe_name E username) = true ->
  ∃ row,
    fetch_by_safe_name (db (register_write E salt username email pw addr w))
      (get_safe_name E username) = Some row
    ∧ users (db (register_write E salt username email pw addr w))
      = (users (db w) ++ [row])%list
    ∧ u_id row = next_id (db w) ∧ u_name row = username
    ∧ u_safe_name row = get_safe_name E username ∧ u_email row = email
    ∧ u_priv row = default_priv E
    ∧ u_pw_bcrypt row = bcrypt_hashpw E (md5_hexdigest E pw) salt.
Proof.
  intros Hfree. apply negb_true_iff in Hfree.
  eexists. split; [| split; [apply register_write_users | cbn; tauto]].
  unfold fetch_by_safe_name. rewrite register_write_users, find_snoc.
  rewrite (find_none_existsb _ _ Hfree). cbn [u_safe_name].
  rewrite String.eqb_refl. reflexivity.
Qed.

(** X7: when no row carries the safe name of the username, the row the
    write phase inserts is the one a lookup by that safe name returns; it
    has the next id, the submitted name and email and the default
    privilege, its id is in [stats], its hash is a key of the cache for the
    md5 digest of the password, and the name and the email now count as
    taken. *)
Theorem register_write_then_lookup E salt username email pw addr w :
  safe_name_free (db w) (get_safe_name E username) = true ->
  let w' := register_write E salt username email pw addr w in
  ∃ row,
    fetch_by_safe_name (db w') (get_safe_name E username) = Some row
    ∧ u_id row = next_id (db w) ∧ u_name row = username ∧ u_email row = email
    ∧ u_priv row = default_priv E
    ∧ In (u_id row) (stats (db w'))
    ∧ bcrypt_cache w' !! u_pw_bcrypt row = Some (md5_hexdigest E pw)
    ∧ name_taken (db w') username = true
    ∧ email_taken (db w') email = true.
Proof.
  intros Hfree w'.
  destruct (register_write_fetch E salt username email pw addr w Hfree)
    as (row & Hf & Hu & Hid & Hn & _ & He & Hp & Hh).
  exists row. fold w' in Hf, Hu.
  split; [exact Hf |]. split; [exact Hid |]. split; [exact Hn |].
  split; [exact He |]. split; [exact Hp |]. split.
  { rewrite Hid. unfold w'. cbn. apply in_or_app. right. left. reflexivity. }
  split.
  { rewrite Hh. unfold w'. rewrite register_write_cache. apply lookup_insert_eq. }
  unfold name_taken, email_taken. rewrite Hu, !existsb_app. cbn [existsb].
  rewrite Hn, He, !String.eqb_refl, !orb_true_r. split; reflexivity.
Qed.

Lemma register_write_then_lookup_witness :
  let w' := register_write sample_externals "salt" "Bob" "bob@b.co" "Str0ngPW!"
              "127.0.0.1" sample_world in
  ∃ row,
    fetch_by_safe_name (db w') "bob" = Some row
    ∧ u_id row = 6 ∧ u_name row = "Bob" ∧ u_email row = "bob@b.co"
    ∧ u_priv row = 1
    ∧ In (u_id row) (stats (db w'))
    ∧ bcrypt_cache w' !! u_pw_bcrypt row = Some "md5:Str0ngPW!"
    ∧ name_taken (db w') "Bob" = true
    ∧ email_taken (db w') "bob@b.co" = true.
Proof.
  apply (register_write_then_lookup sample_externals "salt" "Bob" "bob@b.co"
           "Str0ngPW!" "127.0.0.1" sample_world).
  reflexivity.
Defined.

(** X8: the write phase keeps the store in order: when the ids are
    distinct and below the counter and every row has its [stats] row, the
    same holds afterwards; the counter grows by one, and a row that a
    lookup by id found before is found after. *)
Theorem register_write_store_ok E salt username email pw addr w :
  store_ok (db w) ->
  let w' := register_write E salt username email pw addr w in
  store_ok (db w')
  ∧ next_id (db w') = next_id (db w) + 1
  ∧ (∀ id u, fetch_by_id (db w) id = Some u -> fetch_by_id (db w') id = Some u).
Proof.
  intros (Hlt & Hnd & Hst) w'.
  assert (Hu : users (db w') = (users (db w) ++ [
              {| u_id := next_id (db w); u_name := username;
                 u_safe_name := get_safe_name E username; u_email := email;
                 u_pw_bcrypt := bcrypt_hashpw E (md5_hexdigest E pw) salt;
                 u_priv := default_priv E;
                 u_country :=
                   if String.eqb addr "127.0.0.1" then "xx"
                   else match geolite2_lookup E addr with
                        | Some c => Str.lower c
                        | None => "xx"
                        end;
                 u_silence_end := default_silence_end E |}])%list)
    by apply register_write_users.
  assert (Hs : stats (db w') = (stats (db w) ++ [next_id (db w)])%list) by reflexivity.
  assert (Hn : next_id (db w') = next_id (db w) + 1) by reflexivity.
  split; [| split; [exact Hn |]].
  - unfold store_ok. rewrite Hu, Hs, Hn. split; [| split].
    + intros u Hin. apply in_app_or in Hin. destruct Hin as [Hin | [<- | []]].
      * specialize (Hlt u Hin). lia.
      * cbn. lia.
    + rewrite map_app. cbn [map u_id]. apply NoDup_app. split; [exact Hnd |].
      split; [| apply NoDup_singleton].
      intros x Hx Hx'. apply list_elem_of_singleton in Hx'. subst x.
      apply list_elem_of_fmap in Hx. destruct Hx as (u & Heq & Hin).
      apply list_elem_of_In in Hin. specialize (Hlt u Hin). lia.
    + intros u Hin. apply in_or_app.
      apply in_app_or in Hin. destruct Hin as [Hin | [<- | []]].
      * left. apply Hst. exact Hin.
      * right. left. reflexivity.
  - intros id u Hf. unfold fetch_by_id in *. rewrite Hu, find_snoc, Hf. reflexivity.
Qed.

Lemma sample_store_ok : store_ok sample_db.
Proof.
  unfold store_ok. split; [| split].
  - intros u Hin. cbn in Hin.
    repeat (destruct Hin as [<- | Hin]; [cbn; lia |]). destruct Hin.
  - apply (bool_decide_unpack _). vm_compute. exact I.
  - intros u Hin. cbn in Hin.
    repeat (destruct Hin as [<- | Hin]; [cbn; tauto |]). destruct Hin.
Qed.

Lemma register_write_store_ok_witness :
  let w' := register_write sample_externals "salt" "Bob" "bob@b.co" "Str0ngPW!"
              "127.0.0.1" sample_world in
  store_ok (db w') ∧ next_id (db w') = 7.
Proof.
  intros w'.
  pose proof (register_write_store_ok sample_externals "salt" "Bob" "bob@b.co"
                "Str0ngPW!" "127.0.0.1" sample_world sample_store_ok)
    as (Hok & Hn & _).
  split; [exact Hok | exact Hn].
Defined.

(** X9: registration followed by login.  After the write phase for the
    form of [rq] (no row carried the safe name, and the new id is not 1), a
    login with the same form finds the new row and its hash in the cache:
    [bcrypt.checkpw] is not called, and the answer is the one the default
    privilege value decides (the verify page when it lacks the Verified
    bit). *)
Theorem register_write_then_login E salt rq w :
  logged_in w = false ->
  safe_name_free (db w) (get_safe_name E (form_username rq)) = true ->
  next_id (db w) ≠ 1 ->
  let w' := register_write E salt (form_username rq) (form_email rq)
              (form_password rq) (remote_addr rq) w in
  fst (login_post E rq w') = after_password E rq (default_priv E)
  ∧ checkpw_calls (snd (login_post E rq w')) = checkpw_calls w
  ∧ bcrypt_cache (snd (login_post E rq w')) = bcrypt_cache w'.
Proof.
  intros Hl Hfree Hid w'.
  destruct (register_write_fetch E salt (form_username rq) (form_email rq)
              (form_password rq) (remote_addr rq) w Hfree)
    as (row & Hf & _ & Hrid & _ & _ & _ & Hp & Hh).
  fold w' in Hf.
  assert (Hl' : logged_in w' = false) by exact Hl.
  assert (Hne : (u_id row =? 1) = false) by (apply Z.eqb_neq; congruence).
  assert (Hhit : bcrypt_cache w' !! u_pw_bcrypt row
                 = Some (md5_hexdigest E (form_password rq))).
  { rewrite Hh. unfold w'. rewrite register_write_cache. apply lookup_insert_eq. }
  unfold login_post. rewrite Hl', Hf, Hne. unfold check_password.
  rewrite Hhit, String.eqb_refl, Hp. unfold after_password, welcome_back.
  destruct (has_flag (default_priv E) (Privileges_Verified E)); cbn [negb];
    [| repeat split].
  destruct (has_flag (default_priv E) (Privileges_Normal E)); cbn [negb];
    repeat split.
Qed.

Lemma register_write_then_login_witness :
  let rq := mk_request "Bob" "bob@b.co" "Str0ngPW!" in
  let w' := register_write sample_externals "salt" "Bob" "bob@b.co" "Str0ngPW!"
              "127.0.0.1" sample_world in
  fst (login_post sample_externals rq w') = Template "verify.html" []
  ∧ checkpw_calls (snd (login_post sample_externals rq w')) = 0%nat.
Proof.
  intros rq w'.
  assert (Hid : next_id (db sample_world) ≠ 1) by discriminate.
  pose proof (register_write_then_login sample_externals "salt" rq sample_world
                eq_refl eq_refl Hid) as (Hresp & Hcalls & _).
  split; [exact Hresp | exact Hcalls].
Defined.

(** ** Login: what the handler does and never does *)

Lemma check_password_frame E d h w :
  db (snd (check_password E d h w)) = db w
  ∧ session (snd (check_password E d h w)) = session w
  ∧ bcrypt_cache w ⊆ bcrypt_cache (snd (check_password E d h w))
  ∧ (checkpw_calls w <= checkpw_calls (snd (check_password E d h w))
     <= S (checkpw_calls w))%nat.
Proof.
  unfold check_password. destruct (bcrypt_cache w !! h) eqn:Hc.
  - cbn. repeat split; [reflexivity | lia | lia].
  - destruct (bcrypt_checkpw E d h) as [[|] |]; cbn; repeat split;
      first [lia | reflexivity | apply insert_subseteq; exact Hc].
Qed.

Lemma check_password_sound E d h w :
  cache_wf E (bcrypt_cache w) ->
  fst (check_password E d h w) = Some true ->
  bcrypt_checkpw E d h = Some true.
Proof.
  intros Hwf. unfold check_password. destruct (bcrypt_cache w !! h) eqn:Hc.
  - cbn. intros [= Heq]. apply String.eqb_eq in Heq. subst. eapply Hwf. exact Hc.
  - destruct (bcrypt_checkpw E d h) as [[|] |]; cbn; congruence.
Qed.

(** The two ways [login_post] ends: without the welcome, in the world it was
    given or in the one the password check left; or with the welcome and the
    session of the row that was found. *)
Lemma login_post_inv E rq w :
  (fst (login_post E rq w) ≠ welcome_back rq
   ∧ (snd (login_post E rq w) = w
      ∨ ∃ u, snd (login_post E rq w)
             = snd (check_password E (md5_hexdigest E (form_password rq))
                      (u_pw_bcrypt u) w)))
  ∨ (logged_in w = false
     ∧ ∃ u, fetch_by_safe_name (db w) (get_safe_name E (form_username rq)) = Some u
            ∧ u_id u ≠ 1
            ∧ fst (check_password E (md5_hexdigest E (form_password rq))
                     (u_pw_bcrypt u) w) = Some true
            ∧ has_flag (u_priv u) (Privileges_Verified E) = true
            ∧ has_flag (u_priv u) (Privileges_Normal E) = true
            ∧ fst (login_post E rq w) = welcome_back rq
            ∧ snd (login_post E rq w)
              = set_session (snapshot E u)
                  (snd (check_password E (md5_hexdigest E (form_password rq))
                          (u_pw_bcrypt u) w))).
Proof.
  unfold login_post, welcome_back, flash_with_name.
  destruct (logged_in w).
  { left. cbn [fst snd]. split; [| left; reflexivity].
    destruct (session_user_data (session w)); discriminate. }
  destruct (fetch_by_safe_name _ _) as [u |];
    [| left; cbn [fst snd]; split; [discriminate | left; reflexivity]].
  destruct (u_id u =? 1) eqn:Hid;
    [left; cbn [fst snd]; split; [discriminate | left; reflexivity] |].
  apply Z.eqb_neq in Hid.
  destruct (check_password E _ _ w) as [[[|] |] w1] eqn:Hcp; cbn [fst snd];
    try (left; split; [discriminate | right; exists u; rewrite Hcp; reflexivity]).
  destruct (has_flag (u_priv u) (Privileges_Verified E)) eqn:Hv; cbn [negb fst snd];
    [| left; split; [discriminate | right; exists u; rewrite Hcp; reflexivity]].
  destruct (has_flag (u_priv u) (Privileges_Normal E)) eqn:Hn; cbn [negb fst snd];
    [| left; split; [discriminate | right; exists u; rewrite Hcp; reflexivity]].
  right. split; [reflexivity |]. exists u. rewrite Hcp. cbn [fst snd].
  repeat split; first [assumption | reflexivity].
Qed.

(** X10: a session becomes authenticated only through a complete login:
    when [login_post] turns a session that was not authenticated into an
    authenticated one, the lookup by safe name found a row other than the
    row with id 1, the password check accepted, the row has the Verified
    and the Normal bit, the answer is the welcome flash, and the session
    holds the snapshot of that row. *)
Theorem login_post_authenticates_only_on_success E rq w :
  logged_in w = false ->
  logged_in (snd (login_post E rq w)) = true ->
  ∃ u, fetch_by_safe_name (db w) (get_safe_name E (form_username rq)) = Some u
       ∧ u_id u ≠ 1
       ∧ fst (check_password E (md5_hexdigest E (form_password rq))
                (u_pw_bcrypt u) w) = Some true
       ∧ has_flag (u_priv u) (Privileges_Verified E) = true
       ∧ has_flag (u_priv u) (Privileges_Normal E) = true
       ∧ fst (login_post E rq w) = welcome_back rq
       ∧ session (snd (login_post E rq w)) = snapshot E u.
Proof.
  intros Hl Hafter.
  destruct (login_post_inv E rq w)
    as [[_ [Hw | (u & Hw)]] | (_ & u & Hf & Hid & Hok & Hv & Hn & Hr & Hw)].
  - rewrite Hw in Hafter. congruence.
  - rewrite Hw in Hafter. unfold logged_in in Hafter, Hl.
    rewrite (proj1 (proj2 (check_password_frame E _ _ w))) in Hafter. congruence.
  - exists u. rewrite Hw. repeat split; assumption.
Qed.

Lemma login_post_authenticates_only_on_success_witness :
  ∃ u, fetch_by_safe_name (db sample_world) "alice" = Some u
       ∧ u_id u ≠ 1
       ∧ fst (check_password sample_externals "md5:Str0ngPW!" (u_pw_bcrypt u)
                sample_world) = Some true
       ∧ has_flag (u_priv u) 2 = true
       ∧ has_flag (u_priv u) 1 = true
       ∧ fst (login_post sample_externals (mk_request "Alice" "" "Str0ngPW!")
                sample_world)
         = welcome_back (mk_request "Alice" "" "Str0ngPW!")
       ∧ session (snd (login_post sample_externals
                         (mk_request "Alice" "" "Str0ngPW!") sample_world))
         = snapshot sample_externals u.
Proof.
  apply (login_post_authenticates_only_on_success sample_externals
           (mk_request "Alice" "" "Str0ngPW!") sample_world);
    vm_compute; reflexivity.
Defined.

(** X11: a login that does not end with the welcome flash leaves the
    session as it was. *)
Theorem login_post_refused_keeps_session E rq w :
  fst (login_post E rq w) ≠ welcome_back rq ->
  session (snd (login_post E rq w)) = session w.
Proof.
  intros Hno.
  destruct (login_post_inv E rq w)
    as [[_ [Hw | (u & Hw)]] | (_ & u & _ & _ & _ & _ & _ & Hr & _)].
  - rewrite Hw. reflexivity.
  - rewrite Hw. apply check_password_frame.
  - contradiction.
Qed.

Lemma login_post_refused_keeps_session_witness :
  session (snd (login_post sample_externals (mk_request "Alice" "" "wrong")
                  sample_world)) = session sample_world.
Proof. apply login_post_refused_keeps_session. discriminate. Defined.

(** X12: through a cache in which every digest verifies against its key, a
    login ends with the welcome flash only for a row whose hash
    [bcrypt.checkpw] accepts for the md5 digest of the submitted
    password. *)
Theorem login_post_sound_through_cache E rq w :
  cache_wf E (bcrypt_cache w) ->
  fst (login_post E rq w) = welcome_back rq ->
  ∃ u, fetch_by_safe_name (db w) (get_safe_name E (form_username rq)) = Some u
       ∧ bcrypt_checkpw E (md5_hexdigest E (form_password rq)) (u_pw_bcrypt u)
         = Some true.
Proof.
  intros Hwf Hyes.
  destruct (login_post_inv E rq w)
    as [[Hno _] | (_ & u & Hf & _ & Hok & _)]; [contradiction |].
  exists u. split; [exact Hf |]. eapply check_password_sound; eassumption.
Qed.

Lemma login_post_sound_through_cache_witness :
  ∃ u, fetch_by_safe_name (db sample_world) "alice" = Some u
       ∧ bcrypt_checkpw sample_externals "md5:Str0ngPW!" (u_pw_bcrypt u) = Some true.
Proof.
  apply (login_post_sound_through_cache sample_externals
           (mk_request "Alice" "" "Str0ngPW!") sample_world).
  - apply cache_wf_empty.
  - vm_compute. reflexivity.
Defined.

(** X13: whatever the request, [login_post] leaves the store as it is,
    keeps every entry of the cache, and calls [bcrypt.checkpw] at most
    once. *)
Theorem login_post_frame E rq w :
  db (snd (login_post E rq w)) = db w
  ∧ bcrypt_cache w ⊆ bcrypt_cache (snd (login_post E rq w))
  ∧ (checkpw_calls w <= checkpw_calls (snd (login_post E rq w))
     <= S (checkpw_calls w))%nat.
Proof.
  destruct (login_post_inv E rq w)
    as [[_ [Hw | (u & Hw)]] | (_ & u & _ & _ & _ & _ & _ & _ & Hw)]; rewrite Hw.
  - repeat split; [reflexivity | lia | lia].
  - destruct (check_password_frame E (md5_hexdigest E (form_password rq))
                (u_pw_bcrypt u) w) as (Hd & _ & Hc & Hn).
    repeat split; [exact Hd | exact Hc | lia | lia].
  - destruct (check_password_frame E (md5_hexdigest E (form_password rq))
                (u_pw_bcrypt u) w) as (Hd & _ & Hc & Hn).
    repeat split; [exact Hd | exact Hc | cbn; lia | cbn; lia].
Qed.

(** X14: for a row whose hash is a key of the cache, [login_post] decides by
    comparing the md5 digest of the password with the cached digest:
    [bcrypt.checkpw] is not called and the cache is not changed, whether
    the password is right or wrong. *)
Theorem login_post_cache_hit E rq w u cached :
  logged_in w = false ->
  fetch_by_safe_name (db w) (get_safe_name E (form_username rq)) = Some u ->
  u_id u ≠ 1 ->
  bcrypt_cache w !! u_pw_bcrypt u = Some cached ->
  fst (login_post E rq w)
  = (if String.eqb (md5_hexdigest E (form_password rq)) cached
     then after_password E rq (u_priv u)
     else Flash "error" "Password is incorrect." "login")
  ∧ checkpw_calls (snd (login_post E rq w)) = checkpw_calls w
  ∧ bcrypt_cache (snd (login_post E rq w)) = bcrypt_cache w.
Proof.
  intros Hl Hf Hid Hhit. apply Z.eqb_neq in Hid.
  unfold login_post. rewrite Hl, Hf, Hid. unfold check_password. rewrite Hhit.
  unfold after_password, welcome_back.
  destruct (String.eqb _ cached); [| repeat split].
  destruct (has_flag (u_priv u) (Privileges_Verified E)); cbn [negb];
    [| repeat split].
  destruct (has_flag (u_priv u) (Privileges_Normal E)); cbn [negb]; repeat split.
Qed.

Lemma login_post_cache_hit_witness :
  let w := cache_store "$2b$md5:Str0ngPW!" "md5:Str0ngPW!" sample_world in
  fst (login_post sample_externals (mk_request "Alice" "" "guess") w)
  = Flash "error" "Password is incorrect." "login"
  ∧ checkpw_calls (snd (login_post sample_externals (mk_request "Alice" "" "guess") w))
    = 0%nat.
Proof.
  intros w.
  assert (Hid : u_id (mk_user 3 "Alice" "alice" "a@b.co" "$2b$md5:Str0ngPW!" 3) ≠ 1)
    by discriminate.
  pose proof (login_post_cache_hit sample_externals (mk_request "Alice" "" "guess") w
                (mk_user 3 "Alice" "alice" "a@b.co" "$2b$md5:Str0ngPW!" 3)
                "md5:Str0ngPW!" eq_refl eq_refl Hid eq_refl) as (Hresp & Hcalls & _).
  split; [exact Hresp | exact Hcalls].
Defined.

(** X15: for a row whose hash is not a key of the cache and whose hash
    [bcrypt.checkpw] accepts for the digest of the password, the pair is
    stored in the cache after one call of [bcrypt.checkpw], also when the
    login is then refused because the row lacks the Verified or the Normal
    bit; the lack of the Verified bit is reported first. *)
Theorem login_post_accepted_is_cached E rq w u :
  logged_in w = false ->
  fetch_by_safe_name (db w) (get_safe_name E (form_username rq)) = Some u ->
  u_id u ≠ 1 ->
  bcrypt_cache w !! u_pw_bcrypt u = None ->
  bcrypt_checkpw E (md5_hexdigest E (form_password rq)) (u_pw_bcrypt u) = Some true ->
  fst (login_post E rq w) = after_password E rq (u_priv u)
  ∧ bcrypt_cache (snd (login_post E rq w))
    = <[u_pw_bcrypt u := md5_hexdigest E (form_password rq)]> (bcrypt_cache w)
  ∧ checkpw_calls (snd (login_post E rq w)) = S (checkpw_calls w)
  ∧ (has_flag (u_priv u) (Privileges_Verified E) = false ->
     fst (login_post E rq w) = Template "verify.html" []
     ∧ session (snd (login_post E rq w)) = session w).
Proof.
  intros Hl Hf Hid Hmiss Hok. apply Z.eqb_neq in Hid.
  unfold login_post. rewrite Hl, Hf, Hid. unfold check_password.
  rewrite Hmiss, Hok. unfold after_password, welcome_back.
  destruct (has_flag (u_priv u) (Privileges_Verified E)); cbn [negb].
  - destruct (has_flag (u_priv u) (Privileges_Normal E)); cbn [negb];
      repeat split; discriminate.
  - repeat split.
Qed.

Lemma login_post_accepted_is_cached_witness :
  let rq := mk_request "Mallory" "" "hunter2hunter2" in
  fst (login_post sample_externals rq sample_world)
  = Flash "error" "You are banned!" "login"
  ∧ bcrypt_cache (snd (login_post sample_externals rq sample_world))
    = <["$2b$md5:hunter2hunter2" := "md5:hunter2hunter2"]> ∅.
Proof.
  intros rq.
  assert (Hid : u_id (mk_user 4 "Mallory" "mallory" "m@b.co"
                        "$2b$md5:hunter2hunter2" 2) ≠ 1) by discriminate.
  pose proof (login_post_accepted_is_cached sample_externals rq sample_world
                (mk_user 4 "Mallory" "mallory" "m@b.co" "$2b$md5:hunter2hunter2" 2)
                eq_refl eq_refl Hid eq_refl eq_refl) as (Hresp & Hcache & _).
  split; [exact Hresp | exact Hcache].
Defined.

(** X16: for a row whose hash is not a key of the cache, a password that
    [bcrypt.checkpw] does not accept is never cached: the handler answers
    "Password is incorrect." (or lets the exception of a malformed hash
    through), the cache and the session stay as they were, and each such
    attempt costs one call of [bcrypt.checkpw]. *)
Theorem login_post_rejected_not_cached E rq w u :
  logged_in w = false ->
  fetch_by_safe_name (db w) (get_safe_name E (form_username rq)) = Some u ->
  u_id u ≠ 1 ->
  bcrypt_cache w !! u_pw_bcrypt u = None ->
  bcrypt_checkpw E (md5_hexdigest E (form_password rq)) (u_pw_bcrypt u) ≠ Some true ->
  login_post E rq w
  = (match bcrypt_checkpw E (md5_hexdigest E (form_password rq)) (u_pw_bcrypt u) with
     | Some _ => Flash "error" "Password is incorrect." "login"
     | None => Raised (ValueError "Invalid salt")
     end, count_checkpw w).
Proof.
  intros Hl Hf Hid Hmiss Hno. apply Z.eqb_neq in Hid.
  unfold login_post. rewrite Hl, Hf, Hid. unfold check_password. rewrite Hmiss.
  destruct (bcrypt_checkpw E _ _) as [[|] |]; [contradiction | reflexivity | reflexivity].
Qed.

Lemma login_post_rejected_not_cached_witness :
  login_post sample_externals (mk_request "Alice" "" "guess") sample_world
  = (Flash "error" "Password is incorrect." "login", count_checkpw sample_world).
Proof.
  assert (Hid : u_id (mk_user 3 "Alice" "alice" "a@b.co" "$2b$md5:Str0ngPW!" 3) ≠ 1)
    by discriminate.
  apply (login_post_rejected_not_cached sample_externals
           (mk_request "Alice" "" "guess") sample_world
           (mk_user 3 "Alice" "alice" "a@b.co" "$2b$md5:Str0ngPW!" 3)
           eq_refl eq_refl Hid eq_refl).
  discriminate.
Defined.

(** ** Login and logout *)

(** X17: logout undoes the session of a login and nothing else.  After a
    login that ended with the welcome flash the settings page is shown;
    logout answers with its success flash and leaves the anonymous
    session, the store and the cache as the login left them; after it the
    settings page and a further logout are refused and the login page is
    shown again. *)
Theorem logout_undoes_login E cfg rq w :
  fst (login_post E rq w) = welcome_back rq ->
  let w1 := snd (login_post E rq w) in
  let w2 := snd (logout cfg w1) in
  settings w1 = Template "settings.html" []
  ∧ fst (logout cfg w1) = Flash "success" "Successfully logged out!" "login"
  ∧ session w2 = anonymous
  ∧ db w2 = db w ∧ bcrypt_cache w2 = bcrypt_cache w1
  ∧ settings w2
    = Flash "error" "You must be logged in to access user settings!" "login"
  ∧ fst (logout cfg w2)
    = Flash "error" "You can't logout if you aren't logged in!" "login"
  ∧ login w2 = Template "login.html" [].
Proof.
  intros Hyes.
  destruct (login_post_inv E rq w)
    as [[Hno _] | (_ & u & _ & _ & _ & _ & _ & _ & Hw)]; [contradiction |].
  cbv zeta. rewrite Hw.
  set (w0 := snd (check_password E _ _ w)).
  assert (Hdb : db w0 = db w) by apply check_password_frame.
  unfold logout, settings, login, logged_in. cbn [session set_session authenticated
    session_user_data snapshot negb].
  destruct (debug cfg); cbn; rewrite Hdb; repeat split.
Qed.

Lemma logout_undoes_login_witness :
  let w1 := snd (login_post sample_externals (mk_request "Alice" "" "Str0ngPW!")
                   sample_world) in
  fst (logout sample_config w1) = Flash "success" "Successfully logged out!" "login"
  ∧ session (snd (logout sample_config w1)) = anonymous.
Proof.
  intros w1.
  assert (Hyes : fst (login_post sample_externals (mk_request "Alice" "" "Str0ngPW!")
                        sample_world)
                 = welcome_back (mk_request "Alice" "" "Str0ngPW!"))
    by (vm_compute; reflexivity).
  pose proof (logout_undoes_login sample_externals sample_config
                (mk_request "Alice" "" "Str0ngPW!") sample_world Hyes)
    as (_ & Hout & Hs & _).
  split; [exact Hout | exact Hs].
Defined.

(** ** Sequences of requests *)

(** Every handler leaves the store as it is. *)
Lemma handle_db E cfg r rq w : db (snd (handle E cfg r rq w)) = db w.
Proof.
  destruct r; cbn [handle snd]; try reflexivity.
  - destruct (login_post_inv E rq w)
      as [[_ [Hw | (u & Hw)]] | (_ & u & _ & _ & _ & _ & _ & _ & Hw)]; rewrite Hw.
    + reflexivity.
    + apply check_password_frame.
    + cbn [db set_session]. apply check_password_frame.
  - rewrite register_post_world. reflexivity.
  - unfold logout. destruct (negb (logged_in w)); [reflexivity |].
    destruct (debug cfg), (session_user_data (session w)); reflexivity.
Qed.

(** The session after a request: the one before, the anonymous one, or the
    snapshot of a stored row with the two bits. *)
Lemma handle_session E cfg r rq w :
  session (snd (handle E cfg r rq w)) = session w
  ∨ session (snd (handle E cfg r rq w)) = anonymous
  ∨ ∃ u, session (snd (handle E cfg r rq w)) = snapshot E u
         ∧ In u (users (db w)) ∧ u_id u ≠ 1
         ∧ has_flag (u_priv u) (Privileges_Verified E) = true
         ∧ has_flag (u_priv u) (Privileges_Normal E) = true.
Proof.
  destruct r; cbn [handle snd]; try (left; reflexivity).
  - destruct (login_post_inv E rq w)
      as [[_ [Hw | (u & Hw)]] | (_ & u & Hf & Hid & _ & Hv & Hn & _ & Hw)]; rewrite Hw.
    + left. reflexivity.
    + left. apply check_password_frame.
    + right. right. exists u. split; [reflexivity |].
      apply find_some in Hf. tauto.
  - rewrite register_post_world. left. reflexivity.
  - unfold logout. destruct (negb (logged_in w)); [left; reflexivity |].
    destruct (debug cfg), (session_user_data (session w));
      first [left; reflexivity | right; left; reflexivity].
Qed.






Lemma run_db E cfg calls w : db (run E cfg calls w) = db w.
Proof.
  revert w. induction calls as [| [r rq] calls IH]; intros w; [reflexivity |].
  cbn [run]. rewrite IH. apply handle_db.
Qed.

Lemma handle_session_backed E cfg r rq w :
  session_backed E w -> session_backed E (snd (handle E cfg r rq w)).
Proof.
  intros Hb. unfold session_backed, logged_in. rewrite handle_db.
  destruct (handle_session E cfg r rq w)
    as [-> | [-> | (u & -> & Hin & Hid & Hv & Hn)]].
  - exact Hb.
  - discriminate.
  - intros ud _ [= <-]. exists u. cbn. tauto.
Qed.

(** X19: the snapshot of an authenticated session is always that of a
    stored row, other than the row with id 1, that has the Verified and
    the Normal bit: this holds after any sequence of requests when it
    holds before. *)
Theorem run_session_backed E cfg calls w :
  session_backed E w -> session_backed E (run E cfg calls w).
Proof.
  revert w. induction calls as [| [r rq] calls IH]; intros w Hb; [exact Hb |].
  cbn [run]. apply IH. apply handle_session_backed. exact Hb.
Qed.

Lemma sample_session_backed : session_backed sample_externals sample_world.
Proof. intros ud H. discriminate. Qed.

Lemma run_session_backed_witness :
  session_backed sample_externals
    (run sample_externals sample_config
       [(RLoginPost, mk_request "Alice" "" "Str0ngPW!"); (RSettings, mk_request "" "" "")]
       sample_world).
Proof. apply run_session_backed. exact sample_session_backed. Defined.

Lemma handle_cache E cfg r rq w :
  bcrypt_cache w ⊆ bcrypt_cache (snd (handle E cfg r rq w))
  ∧ (cache_wf E (bcrypt_cache w) ->
     cache_wf E (bcrypt_cache (snd (handle E cfg r rq w)))).
Proof.
  destruct r; cbn [handle snd]; try (split; [reflexivity | tauto]).
  - split.
    + destruct (login_post_inv E rq w)
        as [[_ [Hw | (u & Hw)]] | (_ & u & _ & _ & _ & _ & _ & _ & Hw)]; rewrite Hw.
      * reflexivity.
      * apply check_password_frame.
      * cbn [bcrypt_cache set_session]. apply check_password_frame.
    + intros Hwf. destruct (login_post_cache E rq w) as [-> | (u & ->)];
        [exact Hwf | apply check_password_cache_wf; exact Hwf].
  - rewrite register_post_world. split; [reflexivity | tauto].
  - unfold logout. destruct (negb (logged_in w)); [split; [reflexivity | tauto] |].
    destruct (debug cfg), (session_user_data (session w));
      split; first [reflexivity | tauto].
Qed.

(** X20: no sequence of requests changes the [users] or the [stats] table
    or the AUTO_INCREMENT counter, none removes or changes an entry of the
    cache, and a cache in which every digest verifies against its key
    stays such a cache. *)
Theorem run_frame E cfg calls w :
  db (run E cfg calls w) = db w
  ∧ bcrypt_cache w ⊆ bcrypt_cache (run E cfg calls w)
  ∧ (cache_wf E (bcrypt_cache w) -> cache_wf E (bcrypt_cache (run E cfg calls w))).
Proof.
  split; [apply run_db |].
  revert w. induction calls as [| [r rq] calls IH]; intros w.
  - cbn [run]. split; [reflexivity | tauto].
  - cbn [run]. destruct (handle_cache E cfg r rq w) as [Hsub Hwf].
    destruct (IH (snd (handle E cfg r rq w))) as [Hsub' Hwf'].
    split; [etrans; eassumption | tauto].
Qed.

Lemma run_frame_witness :
  cache_wf sample_externals
    (bcrypt_cache
       (run sample_externals sample_config
          [(RLoginPost, mk_request "Alice" "" "Str0ngPW!");
           (RRegisterPost "salt", mk_request "Bob" "bob@b.co" "Str0ngPW!")]
          sample_world)).
Proof.
  apply (run_frame sample_externals sample_config
           [(RLoginPost, mk_request "Alice" "" "Str0ngPW!");
            (RRegisterPost "salt", mk_request "Bob" "bob@b.co" "Str0ngPW!")]
           sample_world).
  apply cache_wf_empty.
Defined.

(** ** Profile: who sees what *)

Lemma checked_arg_inv arg valid default v :
  default ∈ valid ->
  checked_arg arg valid default = Some v ->
  v ∈ valid ∧ (arg = None ∨ arg = Some EmptyString -> v = default).
Proof.
  intros Hd. unfold checked_arg. destruct arg as [a |].
  - destruct (String.eqb a "") eqn:He.
    + intros [= <-]. split; [exact Hd | reflexivity].
    + destruct (bool_decide (a ∈ valid)) eqn:Hin; [| discriminate].
      intros [= <-]. apply bool_decide_eq_true_1 in Hin. split; [exact Hin |].
      intros [H | [= ->]]; [discriminate | discriminate].
  - intros [= <-]. split; [exact Hd | reflexivity].
Qed.

Lemma checked_arg_none arg valid default :
  checked_arg arg valid default = None -> rejected arg valid.
Proof.
  unfold checked_arg, rejected. destruct arg as [a |]; [| discriminate].
  destruct (String.eqb a "") eqn:He; [discriminate |].
  destruct (bool_decide (a ∈ valid)) eqn:Hin; [discriminate |].
  intros _. exists a. apply String.eqb_neq in He.
  apply bool_decide_eq_false_1 in Hin. tauto.
Qed.

Lemma default_mods_valid : "vn" ∈ valid_mods.
Proof. apply (bool_decide_eq_true_1 _). vm_compute. reflexivity. Qed.

Lemma default_mode_valid : "std" ∈ valid_modes.
Proof. apply (bool_decide_eq_true_1 _). vm_compute. reflexivity. Qed.

(** X21: an account with [priv >= 3] is shown to every viewer: once the
    query values are accepted, the profile page is rendered whatever the
    session holds. *)
Theorem profile_visible_account E user rq w u mods mode :
  checked_arg (arg_mods rq) valid_mods "vn" = Some mods ->
  checked_arg (arg_mode rq) valid_modes "std" = Some mode ->
  fetch_by_id (db w) user = Some u ->
  3 <= u_priv u ->
  profile E user rq w
  = Template "profile.html"
      [("user", TRow (u_name u) (u_id u) (u_priv u) (u_country u));
       ("mode", TStr mode); ("mods", TStr mods)].
Proof.
  intros Hmods Hmode Hf Hp. unfold profile, hidden. rewrite Hmods, Hmode, Hf.
  replace (u_priv u <? 3) with false by (symmetry; apply Z.ltb_ge; exact Hp).
  reflexivity.
Qed.

Lemma profile_visible_account_witness :
  profile sample_externals 3
    (with_args (Some "mania") (Some "rx") (mk_request "" "" "")) sample_world
  = Template "profile.html"
      [("user", TRow "Alice" 3 3 "xx"); ("mode", TStr "mania"); ("mods", TStr "rx")].
Proof.
  apply (profile_visible_account sample_externals 3
           (with_args (Some "mania") (Some "rx") (mk_request "" "" "")) sample_world
           (mk_user 3 "Alice" "alice" "a@b.co" "$2b$md5:Str0ngPW!" 3));
    [reflexivity | reflexivity | reflexivity | cbn; lia].
Defined.

(** X22: the profile page is rendered only for the row that the lookup of
    line 61 returned for the path segment, with a mode and a mods value
    from the enumerations (the defaults "std" and "vn" for values that are
    absent or empty), and, when that row has [priv < 3], only for an
    authenticated viewer whose snapshot has a Staff bit. *)
Theorem profile_page_only_when_allowed E user rq w args :
  profile_segment E user rq w = Template "profile.html" args ->
  ∃ u mode mods,
    fetch_profile E (db w) user = inr (Some u)
    ∧ args = [("user", TRow (u_name u) (u_id u) (u_priv u) (u_country u));
              ("mode", TStr mode); ("mods", TStr mods)]
    ∧ mode ∈ valid_modes ∧ mods ∈ valid_mods
    ∧ (arg_mode rq = None ∨ arg_mode rq = Some EmptyString -> mode = "std")
    ∧ (arg_mods rq = None ∨ arg_mods rq = Some EmptyString -> mods = "vn")
    ∧ (u_priv u < 3 ->
       logged_in w = true
       ∧ ∃ ud, session_user_data (session w) = Some ud
               ∧ Z.land (sd_priv ud) (Privileges_Staff E) ≠ 0).
Proof.
  unfold profile_segment, profile_with.
  destruct (checked_arg (arg_mods rq) valid_mods "vn") as [mods |] eqn:Hmods;
    [| discriminate].
  destruct (checked_arg (arg_mode rq) valid_modes "std") as [mode |] eqn:Hmode;
    [| discriminate].
  destruct (fetch_profile E (db w) user) as [e | [u |]] eqn:Hf; try discriminate.
  destruct (checked_arg_inv _ _ _ _ default_mods_valid Hmods) as [Hm1 Hm2].
  destruct (checked_arg_inv _ _ _ _ default_mode_valid Hmode) as [Hd1 Hd2].
  unfold hidden. destruct (u_priv u <? 3) eqn:Hlt; cbn [andb].
  - destruct (logged_in w); cbn [negb]; [| discriminate].
    destruct (session_user_data (session w)) as [ud |]; [| discriminate].
    unfold has_flag. destruct (Z.land (sd_priv ud) (Privileges_Staff E) =? 0) eqn:Hs;
      cbn [negb]; [discriminate |].
    intros [= <-]. exists u, mode, mods. apply Z.eqb_neq in Hs.
    repeat split; try assumption. exists ud. split; [reflexivity | exact Hs].
  - intros [= <-]. exists u, mode, mods. apply Z.ltb_ge in Hlt.
    repeat split; try assumption; lia.
Qed.

Lemma profile_page_only_when_allowed_witness :
  ∃ u, fetch_profile sample_externals (db sample_world) "4" = inr (Some u)
       ∧ logged_in (set_session staff_session sample_world) = true.
Proof.
  destruct (profile_page_only_when_allowed sample_externals "4" (mk_request "" "" "")
              (set_session staff_session sample_world) _ eq_refl)
    as (u & mode & mods & Hf & Hargs & _ & _ & _ & _ & Hstaff).
  exists u. split; [exact Hf |]. apply Hstaff.
  injection Hargs as _ _ Hp _. rewrite <- Hp. reflexivity.
Defined.

(** X23: the profile route sends a raw payload only for a rejected query
    value: the mods message when the mods value is given, not empty and
    outside {vn, rx, ap}, and the mode message when the mods value is
    accepted and the mode value is given, not empty and outside
    {std, taiko, catch, mania}. *)
Theorem profile_payload_only_when_rejected E user rq w payload :
  profile E user rq w = Bytes payload ->
  (payload = "invalid mods! (vn, rx, ap)" ∧ rejected (arg_mods rq) valid_mods)
  ∨ (payload = "invalid mode! (std, taiko, catch, mania)"
     ∧ rejected (arg_mode rq) valid_modes
     ∧ ¬ rejected (arg_mods rq) valid_mods).
Proof.
  unfold profile.
  destruct (checked_arg (arg_mods rq) valid_mods "vn") as [mods |] eqn:Hmods.
  - destruct (checked_arg (arg_mode rq) valid_modes "std") as [mode |] eqn:Hmode.
    + destruct (fetch_by_id (db w) user) as [u |]; [| discriminate].
      unfold hidden.
      repeat match goal with
             | |- context [if ?b then _ else _] => destruct b
             | |- context [match session_user_data ?x with _ => _ end] =>
                 destruct (session_user_data x)
             end; discriminate.
    + intros [= <-]. right. split; [reflexivity |].
      split; [apply (checked_arg_none _ _ _ Hmode) |].
      intros Hrej. rewrite (checked_arg_rejected _ _ "vn" Hrej) in Hmods. discriminate.
  - intros [= <-]. left. split; [reflexivity | apply (checked_arg_none _ _ _ Hmods)].
Qed.

Lemma profile_payload_only_when_rejected_witness :
  rejected (Some "osu") valid_modes.
Proof.
  destruct (profile_payload_only_when_rejected sample_externals 3
              (with_args (Some "osu") None (mk_request "" "" "")) sample_world
              _ eq_refl) as [[Hp _] | (_ & Hrej & _)].
  - discriminate Hp.
  - exact Hrej.
Defined.

(** X24: login followed by a profile request.  After a login that ended
    with the welcome flash, when the lookup of line 61 returns a row with
    [priv < 3] for the path segment, the profile page is rendered exactly
    when the privilege value of the row that logged in has a Staff bit;
    otherwise the not-found page is rendered. *)
Theorem login_then_profile E rq w u user rq' v mods mode :
  fst (login_post E rq w) = welcome_back rq ->
  fetch_by_safe_name (db w) (get_safe_name E (form_username rq)) = Some u ->
  checked_arg (arg_mods rq') valid_mods "vn" = Some mods ->
  checked_arg (arg_mode rq') valid_modes "std" = Some mode ->
  fetch_profile E (db w) user = inr (Some v) ->
  u_priv v < 3 ->
  profile_segment E user rq' (snd (login_post E rq w))
  = if has_flag (u_priv u) (Privileges_Staff E)
    then Template "profile.html"
           [("user", TRow (u_name v) (u_id v) (u_priv v) (u_country v));
            ("mode", TStr mode); ("mods", TStr mods)]
    else Template "404.html" [].
Proof.
  intros Hyes Hf Hmods Hmode Hv Hp.
  destruct (login_post_inv E rq w)
    as [[Hno _] | (_ & u' & Hf' & _ & _ & _ & _ & _ & Hw)]; [contradiction |].
  rewrite Hf in Hf'. injection Hf' as <-. rewrite Hw.
  unfold profile_segment, profile_with. rewrite Hmods, Hmode. cbn [db set_session].
  rewrite (proj1 (check_password_frame E _ _ w)), Hv.
  unfold hidden, logged_in. cbn [session set_session snapshot authenticated
    session_user_data sd_priv].
  replace (u_priv v <? 3) with true by (symmetry; apply Z.ltb_lt; exact Hp).
  cbn [andb negb]. destruct (has_flag (u_priv u) (Privileges_Staff E)); reflexivity.
Qed.

Lemma login_then_profile_witness :
  profile_segment sample_externals "4" (mk_request "" "" "")
    (snd (login_post sample_externals (mk_request "Mod" "" "m0derat0r!") staffed_world))
  = Template "profile.html"
      [("user", TRow "Mallory" 4 2 "xx"); ("mode", TStr "std"); ("mods", TStr "vn")]
  ∧ profile_segment sample_externals "4" (mk_request "" "" "")
      (snd (login_post sample_externals (mk_request "Alice" "" "Str0ngPW!") staffed_world))
    = Template "404.html" [].
Proof.
  split.
  - apply (login_then_profile sample_externals (mk_request "Mod" "" "m0derat0r!")
             staffed_world
             (mk_user 9 "Mod" "mod" "mod@b.co" "$2b$md5:m0derat0r!" 4099) "4"
             (mk_request "" "" "")
             (mk_user 4 "Mallory" "mallory" "m@b.co" "$2b$md5:hunter2hunter2" 2)
             "vn" "std");
      first [reflexivity | vm_compute; reflexivity | cbn; lia].
  - apply (login_then_profile sample_externals (mk_request "Alice" "" "Str0ngPW!")
             staffed_world
             (mk_user 3 "Alice" "alice" "a@b.co" "$2b$md5:Str0ngPW!" 3) "4"
             (mk_request "" "" "")
             (mk_user 4 "Mallory" "mallory" "m@b.co" "$2b$md5:hunter2hunter2" 2)
             "vn" "std");
      first [reflexivity | vm_compute; reflexivity | cbn; lia].
Defined.

(** ** Registration: the length and distinctness checks *)

(** X25: once the username and email checks passed, a password of at most
    8 or of more than 32 characters is refused with the length flash,
    whatever its characters, and a password of accepted length with at
    most 3 distinct characters is refused with the distinctness flash;
    nothing is written in either case. *)
Theorem register_post_weak_password E cfg salt rq w :
  email_accepted cfg rq w ->
  (Str.len (form_password rq) <= 8 ∨ 32 < Str.len (form_password rq) ->
   register_post E cfg salt rq w
   = (Flash "error" "Password must be 8-32 characters in length" "register", w))
  ∧ (8 < Str.len (form_password rq) <= 32 ->
     Str.distinct (form_password rq) <= 3 ->
     register_post E cfg salt rq w
     = (Flash "error" "Password must have more than 3 unique characters."
          "register", w)).
Proof.
  intros [(Hl & Hr & Hu & Hs & Hd) (Hn & He & Ht)]. split.
  - intros Hlen. unfold register_post. rewrite Hl, Hr, Hu, Hs, Hd, Hn, He, Ht.
    cbn [negb].
    replace ((8 <? Str.len (form_password rq)) && (Str.len (form_password rq) <=? 32))
      with false; [reflexivity |].
    symmetry. apply andb_false_iff.
    destruct Hlen; [left; apply Z.ltb_ge | right; apply Z.leb_gt]; lia.
  - intros [Hlo Hhi] Hdist. unfold register_post.
    rewrite Hl, Hr, Hu, Hs, Hd, Hn, He, Ht. cbn [negb].
    replace (8 <? Str.len (form_password rq)) with true
      by (symmetry; apply Z.ltb_lt; lia).
    replace (Str.len (form_password rq) <=? 32) with true
      by (symmetry; apply Z.leb_le; lia).
    replace (Str.distinct (form_password rq) <=? 3) with true
      by (symmetry; apply Z.leb_le; lia).
    reflexivity.
Qed.

Lemma register_post_weak_password_witness :
  register_post sample_externals sample_config "salt"
    (mk_request "Bob" "bob@b.co" "short") sample_world
  = (Flash "error" "Password must be 8-32 characters in length" "register",
     sample_world)
  ∧ register_post sample_externals sample_config "salt"
      (mk_request "Bob" "bob@b.co" "aaaaaaaaaaaa") sample_world
    = (Flash "error" "Password must have more than 3 unique characters." "register",
       sample_world).
Proof.
  assert (Hacc : ∀ pw, email_accepted sample_config (mk_request "Bob" "bob@b.co" pw)
                         sample_world).
  { intros pw. repeat split; reflexivity. }
  split.
  - apply (register_post_weak_password sample_externals sample_config "salt"
             (mk_request "Bob" "bob@b.co" "short") sample_world (Hacc "short")).
    left. vm_compute. discriminate.
  - apply (register_post_weak_password sample_externals sample_config "salt"
             (mk_request "Bob" "bob@b.co" "aaaaaaaaaaaa") sample_world
             (Hacc "aaaaaaaaaaaa")).
    + split; [reflexivity | vm_compute; discriminate].
    + vm_compute. discriminate.
Defined.
